(** * Async Task Processor API: the task store, the worker and the gateway

    A shallow embedding of [app/db.py], [app/tasks.py] and [app/main.py].

    - The [tasks] table is a finite map from the primary key [task_id] to the
      remaining columns of the row.
    - [datetime.utcnow()], [uuid.uuid4()], [random.uniform] and the exceptions
      the environment may throw are inputs of the functions that use them.
    - Python exceptions are the [Raise] branch of [outcome]. *)

From Stdlib Require Import ZArith Lia.
From stdpp Require Import gmap strings list fin_maps pretty.

Open Scope string_scope.
Open Scope Z_scope.

(** ** Python values shared by the three modules *)

(** A [datetime] value; only its identity and its ISO rendering are used. *)
Definition datetime : Type := Z.

Inductive exn : Type :=
| IntegrityError (key : string)                          (* duplicate primary key *)
| HTTPException (status_code : Z) (detail : string)      (* fastapi *)
| Exception (msg : string).                              (* anything else; [msg] is [str(exc)] *)

Inductive outcome (A : Type) : Type :=
| Return (a : A)
| Raise (e : exn).
Arguments Return {A} a.
Arguments Raise {A} e.

(** JSON values, as pydantic hands them over in [TaskData.data]. *)
Unset Elimination Schemes.
Inductive json : Type :=
| JNull
| JBool (b : bool)
| JNum (z : Z)
| JStr (s : string)
| JArr (l : list json)
| JObj (l : list (string * json)).
Set Elimination Schemes.

(** A Python [dict] with string keys, in insertion order. *)
Definition dict : Type := list (string * json).

(** What the Python runtime provides and the model does not look into. *)
Class PyRuntime : Type := {
  isoformat : datetime -> string;     (* datetime.isoformat *)
  py_str : dict -> string;            (* str(data) *)
  py_hash : string -> Z               (* hash(s), salted per process *)
}.

(** ** app/db.py *)
Module Db.

(** A row of [tasks_table] without its primary key [task_id]. *)
Record task : Type := {
  status : string;
  result : option Z;
  error_message : option string;
  created_at : option datetime;
  completed_at : option datetime
}.

Abbreviation tasks_table := (gmap string task).

(** [insert(tasks_table).values(task_id=, status="pending", created_at=)]:
    the other columns are NULL; a second row with the same primary key is
    refused by the database. *)
Definition create_task (task_id : string) (now : datetime)
    (db : tasks_table) : outcome tasks_table :=
  match db !! task_id with
  | Some _ => Raise (IntegrityError task_id)
  | None =>
      Return (<[task_id := {| status := "pending";
                              result := None;
                              error_message := None;
                              created_at := Some now;
                              completed_at := None |}]> db)
  end.

(** [update(tasks_table).where(task_id == task_id).values(result=,
    status="completed", completed_at=)]: the columns not listed keep their
    values; no row matching is not an error. *)
Definition save_result (task_id : string) (res : Z) (now : datetime)
    (db : tasks_table) : outcome tasks_table :=
  Return (alter (fun row => {| status := "completed";
                               result := Some res;
                               error_message := error_message row;
                               created_at := created_at row;
                               completed_at := Some now |}) task_id db).

(** [update(tasks_table).where(task_id == task_id).values(status="failed",
    error_message=, completed_at=)]. *)
Definition mark_task_failed (task_id : string) (msg : string) (now : datetime)
    (db : tasks_table) : outcome tasks_table :=
  Return (alter (fun row => {| status := "failed";
                               result := result row;
                               error_message := Some msg;
                               created_at := created_at row;
                               completed_at := Some now |}) task_id db).

(** [select(tasks_table).where(task_id == task_id).fetchone()]. *)
Definition get_task (task_id : string) (db : tasks_table) : option task :=
  db !! task_id.

(** The status values the code writes. *)
Definition is_terminal (s : string) : bool :=
  bool_decide (s = "completed" \/ s = "failed").

(** The write operations of the store, and runs of them. A call that raises
    leaves the table as it was (the transaction is rolled back). *)
Inductive op : Type :=
| CreateTask (task_id : string) (now : datetime)
| SaveResult (task_id : string) (res : Z) (now : datetime)
| MarkTaskFailed (task_id : string) (msg : string) (now : datetime).

Definition apply_op (o : op) (db : tasks_table) : outcome tasks_table :=
  match o with
  | CreateTask task_id now => create_task task_id now db
  | SaveResult task_id res now => save_result task_id res now db
  | MarkTaskFailed task_id msg now => mark_task_failed task_id msg now db
  end.

Definition commit (db : tasks_table) (r : outcome tasks_table) : tasks_table :=
  match r with
  | Return db' => db'
  | Raise _ => db
  end.

Fixpoint run_ops (ops : list op) (db : tasks_table) : tasks_table :=
  match ops with
  | [] => db
  | o :: ops' => run_ops ops' (commit db (apply_op o db))
  end.

End Db.

Import Db.

(** ** The Celery primitives the task uses

    Celery is a library, not part of the repository, and [app/celery_app.py]
    only creates the application object whose [task] decorator is applied.
    What the code relies on is modelled here as the library documents it: a
    request carries the arguments of the call and the number of retries made
    so far; [delay] publishes a request with no retries; [Task.retry]
    publishes the request again with one more retry and raises [Retry],
    unless the retries made already reach [max_retries] (the library tests
    [request.retries + 1 > max_retries]), in which case it raises the
    exception it was given and publishes nothing. *)
Module Celery.

Record request : Type := {
  task_id : string;
  data : option dict;
  retries : nat
}.

(** A message on the broker: the request and the delay before delivery. *)
Record message : Type := {
  body : request;
  countdown : Z
}.

(** What [raise self.retry(...)] raises. *)
Inductive raised : Type :=
| Retry (exc : string) (m : message)      (* celery.exceptions.Retry; [m] was published *)
| Reraise (exc : string).                 (* the original exception, nothing published *)

Definition delay (task_id : string) (data : option dict) : message :=
  {| body := {| task_id := task_id; data := data; retries := 0 |};
     countdown := 0 |}.

Definition retry (req : request) (exc : string) (countdown : Z)
    (max_retries : nat) : raised :=
  let retries' := S (retries req) in
  if (max_retries <? retries')%nat then Reraise exc
  else Retry exc {| body := {| task_id := task_id req;
                               data := data req;
                               retries := retries' |};
                    countdown := countdown |}.

End Celery.

(** ** app/tasks.py *)
Module Tasks.

(** [sum(range(n))]: the running sum over 0, 1, ..., n-1. *)
Definition sum_range (n : N) : Z :=
  snd (N.iter n (fun '(i, acc) => (i + 1, acc + i)) (0, 0)).
Arguments sum_range : simpl never.

(** The result of the placeholder computation. [if data:] holds for a
    [dict] that is neither [None] nor empty. *)
Definition compute_result `{PyRuntime} (data : option dict) : Z :=
  let result := sum_range 1000000 in
  match data with
  | Some ((_ :: _) as d) => result + py_hash (py_str d) mod 1000
  | _ => result
  end.

(** The value the task returns on success. *)
Record returned : Type := {
  ret_task_id : string;
  ret_result : Z;
  ret_status : string;
  ret_message : string
}.

(** How one execution ends. *)
Inductive finish : Type :=
| Succeeded (r : returned)
| Raised (r : Celery.raised)
| Crashed (e : exn).             (* an exception out of the [except] block *)

(** What the environment decides during one execution: the integer number
    of one-second rounds [int(random.uniform(5, 10))], the clock read by the
    write to the store, and whether some statement of the [try] block raises.
    Statement [i] below [rounds] is round [i] of the loop (sleep and progress
    report); statement [rounds] is the computation with [save_result]. A
    statement that raises leaves the store as it was. *)
Record attempt_env : Type := {
  rounds : nat;
  utcnow : datetime;
  fault : option (nat * string)
}.

Definition raises_at (env : attempt_env) (i : nat) : option string :=
  match fault env with
  | Some (k, msg) => if (k =? i)%nat then Some msg else None
  | None => None
  end.

(** Whether some statement of the [try] block raises. *)
Definition faulty (env : attempt_env) : bool :=
  match fault env with
  | Some (k, _) => (k <=? rounds env)%nat
  | None => false
  end.

(** Control points of [heavy_computation_task]. *)
Inductive pc : Type :=
| InLoop (i : nat)            (* head of the [for] loop, [i] rounds done *)
| AtResult                    (* [result = sum(range(1000000))] ... [save_result] *)
| InExcept (msg : string)     (* [except Exception as exc], [str(exc) = msg] *)
| AtRetry (msg : string)      (* [raise self.retry(exc=exc, countdown=60, max_retries=3)] *)
| Finished (f : finish).

(** The control is inside the [try] block: the workload is running. *)
Definition in_try (p : pc) : bool :=
  match p with
  | InLoop _ | AtResult => true
  | _ => false
  end.

(** The state of an execution: the control point, the task store, and the
    last progress report sent to Celery's result backend by [update_state]
    (the state name and the round number [i + 1]; the percentage itself is a
    float). *)
Record config : Type := {
  at_pc : pc;
  db : tasks_table;
  progress : option (string * nat)
}.

Definition start (db : tasks_table) : config :=
  {| at_pc := InLoop 0; db := db; progress := None |}.

Definition goto (p : pc) (c : config) : config :=
  {| at_pc := p; db := db c; progress := progress c |}.

Definition exn_str (e : exn) : string :=
  match e with
  | IntegrityError key => key
  | HTTPException _ detail => detail
  | Exception msg => msg
  end.

Definition step `{PyRuntime} (env : attempt_env) (req : Celery.request)
    (c : config) : config :=
  match at_pc c with
  | InLoop i =>
      if (i <? rounds env)%nat then
        match raises_at env i with
        | Some msg => goto (InExcept msg) c
        | None => {| at_pc := InLoop (S i); db := db c;
                     progress := Some ("PROGRESS", S i) |}
        end
      else goto AtResult c
  | AtResult =>
      match raises_at env (rounds env) with
      | Some msg => goto (InExcept msg) c
      | None =>
          let result := compute_result (Celery.data req) in
          match save_result (Celery.task_id req) result (utcnow env) (db c) with
          | Return db' =>
              {| at_pc := Finished (Succeeded
                   {| ret_task_id := Celery.task_id req;
                      ret_result := result;
                      ret_status := "completed";
                      ret_message := "Task completed successfully" |});
                 db := db'; progress := progress c |}
          | Raise e => goto (InExcept (exn_str e)) c
          end
      end
  | InExcept msg =>
      match mark_task_failed (Celery.task_id req) msg (utcnow env) (db c) with
      | Return db' => {| at_pc := AtRetry msg; db := db'; progress := progress c |}
      | Raise e => goto (Finished (Crashed e)) c
      end
  | AtRetry msg => goto (Finished (Raised (Celery.retry req msg 60 3))) c
  | Finished _ => c
  end.

Fixpoint exec `{PyRuntime} (env : attempt_env) (req : Celery.request)
    (k : nat) (c : config) : config :=
  match k with
  | O => c
  | S k' => exec env req k' (step env req c)
  end.

(** One execution from its first statement to its end: the loop takes
    [rounds] steps and at most four more follow. *)
Definition heavy_computation_task `{PyRuntime} (env : attempt_env)
    (req : Celery.request) (db : tasks_table) : config :=
  exec env req (rounds env + 4) (start db).

(** The store as a Query sees it while the execution is at step [k]. *)
Definition db_at `{PyRuntime} (env : attempt_env) (req : Celery.request)
    (db : tasks_table) (k : nat) : tasks_table :=
  Tasks.db (exec env req k (start db)).

End Tasks.

(** ** The system: the store and the broker *)
Record world : Type := {
  store : tasks_table;
  broker : list Celery.message
}.

(** The worker takes the oldest message, runs the task on it and puts back
    what [retry] published. [log] collects how the executions ended. *)
Definition deliver `{PyRuntime} (env : Tasks.attempt_env)
    (wl : world * list Tasks.finish) : world * list Tasks.finish :=
  let '(w, log) := wl in
  match broker w with
  | [] => wl
  | m :: rest =>
      let c := Tasks.heavy_computation_task env (Celery.body m) (store w) in
      match Tasks.at_pc c with
      | Tasks.Finished f =>
          let again := match f with
                       | Tasks.Raised (Celery.Retry _ m') => [m']
                       | _ => []
                       end in
          ({| store := Tasks.db c; broker := (rest ++ again)%list |},
           (log ++ [f])%list)
      | _ => wl
      end
  end.

Definition run_worker `{PyRuntime} (envs : list Tasks.attempt_env)
    (w : world) : world * list Tasks.finish :=
  fold_left (fun wl env => deliver env wl) envs (w, []).

(** ** app/main.py *)
Module Main.

Record TaskData : Type := { data : option dict }.

Module TaskResponse.
Record t : Type := {
  task_id : string;
  status : string;
  message : string
}.
End TaskResponse.

Module TaskStatusResponse.
Record t : Type := {
  task_id : string;
  status : string;
  result : option Z;
  error_message : option string;
  created_at : option string;
  completed_at : option string
}.
End TaskStatusResponse.

Definition health_check : list (string * string) := [("status", "ok")].

(** [uuid4] is the value of [str(uuid.uuid4())] and [now] the clock read by
    [create_task]. An exception leaves the world as the statements before it
    made it. *)
Definition process_task (uuid4 : string) (now : datetime)
    (task_data : TaskData) (w : world) : outcome TaskResponse.t * world :=
  let task_id := uuid4 in
  match create_task task_id now (store w) with
  | Raise e => (Raise e, w)
  | Return db' =>
      let w' := {| store := db';
                   broker := (broker w ++ [Celery.delay task_id (data task_data)])%list |} in
      (Return {| TaskResponse.task_id := task_id;
                 TaskResponse.status := "pending";
                 TaskResponse.message := "Task queued for processing" |}, w')
  end.

(** The row selected by [task_id] carries that [task_id]. *)
Definition get_task_status `{PyRuntime} (task_id : string)
    (db : tasks_table) : outcome TaskStatusResponse.t :=
  match get_task task_id db with
  | None => Raise (HTTPException 404 "Task not found")
  | Some task =>
      Return {| TaskStatusResponse.task_id := task_id;
                TaskStatusResponse.status := status task;
                TaskStatusResponse.result := result task;
                TaskStatusResponse.error_message := error_message task;
                TaskStatusResponse.created_at := isoformat <$> created_at task;
                TaskStatusResponse.completed_at := isoformat <$> completed_at task |}
  end.

End Main.

(** ** Invariant of a row, and a runtime to evaluate examples with *)

(** What the three writes of [app/db.py] maintain of every row. *)
Definition row_ok (row : task) : Prop :=
  (status row = "pending" /\ result row = None /\
   error_message row = None /\ completed_at row = None) \/
  (status row = "completed" /\ is_Some (result row) /\
   is_Some (completed_at row)) \/
  (status row = "failed" /\ is_Some (error_message row) /\
   is_Some (completed_at row)).

(** A stand-in for the Python runtime, to run the model on concrete inputs. *)
Definition sample_runtime : PyRuntime :=
  {| isoformat := fun t => pretty t;
     py_str := fun d => String.concat "," (d.*1);
     py_hash := fun s => 7 - Z.of_nat (String.length s) |}.

(** The id a write of the store addresses, and the ids a run of writes
    asks to create. *)
Definition op_id (o : op) : string :=
  match o with
  | CreateTask task_id _ => task_id
  | SaveResult task_id _ _ => task_id
  | MarkTaskFailed task_id _ _ => task_id
  end.

Fixpoint created_ids (ops : list op) : list string :=
  match ops with
  | [] => []
  | CreateTask task_id _ :: ops' => task_id :: created_ids ops'
  | _ :: ops' => created_ids ops'
  end.

(** * The task store *)
Section Store.
Implicit Types (db : tasks_table) (row : task) (ops : list op).

Lemma alter_absent (f : task -> task) db task_id :
  db !! task_id = None -> alter f task_id db = db.
Proof.
  intros Hnone. apply map_eq. intros j.
  destruct (decide (task_id = j)) as [<-|Hne].
  - rewrite lookup_alter_eq, Hnone. reflexivity.
  - rewrite lookup_alter_ne by assumption. reflexivity.
Qed.

Lemma save_result_lookup db task_id res now row :
  db !! task_id = Some row ->
  commit db (save_result task_id res now db) !! task_id =
    Some {| status := "completed"; result := Some res;
            error_message := error_message row;
            created_at := created_at row; completed_at := Some now |}.
Proof. intros Hrow. cbn. rewrite lookup_alter_eq, Hrow. reflexivity. Qed.

Lemma mark_task_failed_lookup db task_id msg now row :
  db !! task_id = Some row ->
  commit db (mark_task_failed task_id msg now db) !! task_id =
    Some {| status := "failed"; result := result row;
            error_message := Some msg;
            created_at := created_at row; completed_at := Some now |}.
Proof. intros Hrow. cbn. rewrite lookup_alter_eq, Hrow. reflexivity. Qed.

Lemma save_result_other db task_id res now other :
  task_id <> other ->
  commit db (save_result task_id res now db) !! other = db !! other.
Proof. intros Hne. cbn. apply lookup_alter_ne. assumption. Qed.

Lemma mark_task_failed_other db task_id msg now other :
  task_id <> other ->
  commit db (mark_task_failed task_id msg now db) !! other = db !! other.
Proof. intros Hne. cbn. apply lookup_alter_ne. assumption. Qed.

Lemma run_ops_app ops1 ops2 db :
  run_ops (ops1 ++ ops2)%list db = run_ops ops2 (run_ops ops1 db).
Proof.
  revert db. induction ops1 as [|o ops1 IH]; intros db; cbn; [reflexivity|].
  apply IH.
Qed.

(** Every write keeps [row_ok] of every row. *)
Lemma apply_op_row_ok o db :
  map_Forall (fun _ row => row_ok row) db ->
  map_Forall (fun _ row => row_ok row) (commit db (apply_op o db)).
Proof.
  intros Hall j row'. destruct o as [tid now|tid res now|tid msg now]; cbn.
  - unfold create_task. destruct (db !! tid) eqn:Hd; cbn; [apply Hall|].
    rewrite lookup_insert. case_decide as Hj.
    + intros [= <-]. left. cbn. auto.
    + apply Hall.
  - rewrite lookup_alter. case_decide as Hj; [subst j|apply Hall].
    destruct (db !! tid) as [row|] eqn:Hd; cbn; [|discriminate].
    intros [= <-]. right; left. cbn. eauto.
  - rewrite lookup_alter. case_decide as Hj; [subst j|apply Hall].
    destruct (db !! tid) as [row|] eqn:Hd; cbn; [|discriminate].
    intros [= <-]. right; right. cbn. eauto.
Qed.

Lemma run_ops_row_ok ops db :
  map_Forall (fun _ row => row_ok row) db ->
  map_Forall (fun _ row => row_ok row) (run_ops ops db).
Proof.
  revert db. induction ops as [|o ops IH]; intros db Hall; cbn; [assumption|].
  apply IH, apply_op_row_ok, Hall.
Qed.

Lemma reachable_row_ok ops task_id row :
  run_ops ops ∅ !! task_id = Some row -> row_ok row.
Proof.
  intros Hrow. eapply (run_ops_row_ok ops ∅); [|exact Hrow].
  apply map_Forall_empty.
Qed.

Lemma row_ok_terminal row :
  row_ok row -> (is_Some (completed_at row) <-> is_terminal (status row) = true).
Proof.
  unfold is_terminal.
  intros [(Hs & _ & _ & Hc)|[(Hs & _ & Hc)|(Hs & _ & Hc)]]; rewrite Hs.
  - rewrite Hc. split; [intros [x [=]]|].
    intros Hb. apply bool_decide_eq_true in Hb as [[=]|[=]].
  - split; [reflexivity|intros _; exact Hc].
  - split; [reflexivity|intros _; exact Hc].
Qed.

End Store.

(** ** Terminal writes on a record that is already terminal *)

(** C1, counterexample. A task is created, completed with result 7 at time
    1, and then [mark_task_failed] is called on it at time 2: the call is
    not a no-op, the record becomes [failed], carries the error and a new
    [completed_at]. The other order ([save_result] after
    [mark_task_failed]) overwrites as well. *)
Lemma late_terminal_write_overwrites :
  run_ops [CreateTask "t" 0; SaveResult "t" 7 1] ∅ !! "t" =
    Some {| status := "completed"; result := Some 7; error_message := None;
            created_at := Some 0; completed_at := Some 1 |} /\
  run_ops [CreateTask "t" 0; SaveResult "t" 7 1;
           MarkTaskFailed "t" "late" 2] ∅ !! "t" =
    Some {| status := "failed"; result := Some 7;
            error_message := Some "late";
            created_at := Some 0; completed_at := Some 2 |} /\
  run_ops [CreateTask "t" 0; MarkTaskFailed "t" "boom" 1;
           SaveResult "t" 7 2] ∅ !! "t" =
    Some {| status := "completed"; result := Some 7;
            error_message := Some "boom";
            created_at := Some 0; completed_at := Some 2 |}.
Proof. repeat split; vm_compute; reflexivity. Qed.

(** C1, as the code has it. On a record that exists (in particular one that
    is already completed or failed) [save_result] and [mark_task_failed]
    never raise and always overwrite: the status and [completed_at] are
    those of the latest call, [save_result] replaces [result] and keeps
    [error_message], [mark_task_failed] replaces [error_message] and keeps
    [result]; [created_at] and every other record are unchanged. *)
Theorem terminal_write_last_writer_wins (db : tasks_table) task_id row :
  db !! task_id = Some row ->
  is_terminal (status row) = true ->
  (forall res now, exists db',
      save_result task_id res now db = Return db' /\
      db' !! task_id =
        Some {| status := "completed"; result := Some res;
                error_message := error_message row;
                created_at := created_at row; completed_at := Some now |} /\
      forall other, task_id <> other -> db' !! other = db !! other) /\
  (forall msg now, exists db',
      mark_task_failed task_id msg now db = Return db' /\
      db' !! task_id =
        Some {| status := "failed"; result := result row;
                error_message := Some msg;
                created_at := created_at row; completed_at := Some now |} /\
      forall other, task_id <> other -> db' !! other = db !! other).
Proof.
  intros Hrow _. split.
  - intros res now. eexists. split; [reflexivity|]. split.
    + apply (save_result_lookup db task_id res now row Hrow).
    + intros other Hne. apply (save_result_other db task_id res now other Hne).
  - intros msg now. eexists. split; [reflexivity|]. split.
    + apply (mark_task_failed_lookup db task_id msg now row Hrow).
    + intros other Hne.
      apply (mark_task_failed_other db task_id msg now other Hne).
Qed.

Lemma terminal_write_last_writer_wins_witness :
  let row := {| status := "completed"; result := Some 7;
                error_message := None;
                created_at := Some 0; completed_at := Some 1 |} in
  let db : tasks_table := {["t" := row]} in
  exists db',
    mark_task_failed "t" "late" 2 db = Return db' /\
    db' !! "t" = Some {| status := "failed"; result := Some 7;
                         error_message := Some "late";
                         created_at := Some 0; completed_at := Some 2 |} /\
    forall other, "t" <> other -> db' !! other = db !! other.
Proof.
  cbv zeta.
  apply (proj2 (terminal_write_last_writer_wins
                  {["t" := {| status := "completed"; result := Some 7;
                              error_message := None; created_at := Some 0;
                              completed_at := Some 1 |}]} "t" _
                  (lookup_singleton_eq _ _) eq_refl) "late" 2).
Defined.

(** ** Terminal writes on an id without a record *)

(** C10. On an id that has no record, [save_result] and [mark_task_failed]
    return normally and leave the table exactly as it was: nothing is
    raised, no record is created, no record is changed. *)
Theorem terminal_write_unknown_id_noop (db : tasks_table) task_id :
  db !! task_id = None ->
  (forall res now, save_result task_id res now db = Return db) /\
  (forall msg now, mark_task_failed task_id msg now db = Return db).
Proof.
  intros Hnone. split; intros x now.
  - unfold save_result. rewrite alter_absent by assumption. reflexivity.
  - unfold mark_task_failed. rewrite alter_absent by assumption. reflexivity.
Qed.

Lemma terminal_write_unknown_id_noop_witness :
  let db : tasks_table :=
    {["a" := {| status := "pending"; result := None; error_message := None;
               created_at := Some 0; completed_at := None |}]} in
  save_result "b" 7 1 db = Return db /\
  mark_task_failed "b" "boom" 1 db = Return db.
Proof.
  cbv zeta. split.
  - refine (proj1 (terminal_write_unknown_id_noop _ "b" _) 7 1).
    vm_compute. reflexivity.
  - refine (proj2 (terminal_write_unknown_id_noop _ "b" _) "boom" 1).
    vm_compute. reflexivity.
Defined.

(** ** [completed_at] *)

(** C3, counterexample. A task fails at time 1 and its retry completes at
    time 2. The record is terminal after the first write and after the
    second, yet [completed_at] is written twice: a Query after the first
    write and a Query after the second return different values. *)
Lemma completed_at_written_twice :
  let db1 := run_ops [CreateTask "t" 0; MarkTaskFailed "t" "boom" 1] ∅ in
  let db2 := run_ops [SaveResult "t" 7 2] db1 in
  Main.get_task_status (H := sample_runtime) "t" db1 =
    Return {| Main.TaskStatusResponse.task_id := "t";
              Main.TaskStatusResponse.status := "failed";
              Main.TaskStatusResponse.result := None;
              Main.TaskStatusResponse.error_message := Some "boom";
              Main.TaskStatusResponse.created_at := Some "0";
              Main.TaskStatusResponse.completed_at := Some "1" |} /\
  Main.get_task_status (H := sample_runtime) "t" db2 =
    Return {| Main.TaskStatusResponse.task_id := "t";
              Main.TaskStatusResponse.status := "completed";
              Main.TaskStatusResponse.result := Some 7;
              Main.TaskStatusResponse.error_message := Some "boom";
              Main.TaskStatusResponse.created_at := Some "0";
              Main.TaskStatusResponse.completed_at := Some "2" |} /\
  is_terminal "failed" = true /\ is_terminal "completed" = true.
Proof. cbv zeta. repeat split; vm_compute; reflexivity. Qed.

(** C3, as the code has it. In every table reached from the empty one by
    [create_task], [save_result] and [mark_task_failed] calls, a record's
    [completed_at] is non-null exactly when its status is completed or
    failed; and it is rewritten by every terminal write: after a further
    [save_result] or [mark_task_failed] on the record it holds the time of
    that call. *)
Theorem completed_at_iff_terminal_latest_write (ops : list op) task_id row :
  run_ops ops ∅ !! task_id = Some row ->
  (is_Some (completed_at row) <-> is_terminal (status row) = true) /\
  (forall res now,
      completed_at <$>
        run_ops (ops ++ [SaveResult task_id res now])%list ∅ !! task_id =
      Some (Some now)) /\
  (forall msg now,
      completed_at <$>
        run_ops (ops ++ [MarkTaskFailed task_id msg now])%list ∅ !! task_id =
      Some (Some now)).
Proof.
  intros Hrow. split; [|split].
  - apply row_ok_terminal. exact (reachable_row_ok ops task_id row Hrow).
  - intros res now. rewrite run_ops_app. cbn [run_ops apply_op].
    rewrite (save_result_lookup _ task_id res now row Hrow). reflexivity.
  - intros msg now. rewrite run_ops_app. cbn [run_ops apply_op].
    rewrite (mark_task_failed_lookup _ task_id msg now row Hrow). reflexivity.
Qed.

Lemma completed_at_iff_terminal_latest_write_witness :
  (is_Some (Some 1) <-> is_terminal "failed" = true) /\
  (forall res now,
      completed_at <$>
        run_ops ([CreateTask "t" 0; MarkTaskFailed "t" "boom" 1] ++
                 [SaveResult "t" res now])%list ∅ !! "t" =
      Some (Some now)) /\
  (forall msg now,
      completed_at <$>
        run_ops ([CreateTask "t" 0; MarkTaskFailed "t" "boom" 1] ++
                 [MarkTaskFailed "t" msg now])%list ∅ !! "t" =
      Some (Some now)).
Proof.
  apply (completed_at_iff_terminal_latest_write
           [CreateTask "t" 0; MarkTaskFailed "t" "boom" 1] "t"
           {| status := "failed"; result := None;
              error_message := Some "boom";
              created_at := Some 0; completed_at := Some 1 |}).
  vm_compute. reflexivity.
Defined.

(** ** [result] and [error_message] *)

(** C4, counterexample. A task fails at time 1 and its retry completes at
    time 2: the record is completed and has both [result] and
    [error_message] set. Completing first and failing afterwards leaves a
    failed record with both set. *)
Lemma result_and_error_both_set :
  run_ops [CreateTask "t" 0; MarkTaskFailed "t" "boom" 1;
           SaveResult "t" 7 2] ∅ !! "t" =
    Some {| status := "completed"; result := Some 7;
            error_message := Some "boom";
            created_at := Some 0; completed_at := Some 2 |} /\
  run_ops [CreateTask "t" 0; SaveResult "t" 7 1;
           MarkTaskFailed "t" "boom" 2] ∅ !! "t" =
    Some {| status := "failed"; result := Some 7;
            error_message := Some "boom";
            created_at := Some 0; completed_at := Some 2 |}.
Proof. split; vm_compute; reflexivity. Qed.

(** C4, as the code has it. After any sequence of [create_task],
    [save_result] and [mark_task_failed] calls, a record that is completed
    has [result] set, a record that is failed has [error_message] set, and a
    record that is neither (it is then pending) has neither field set. *)
Theorem result_error_by_status (ops : list op) task_id row :
  run_ops ops ∅ !! task_id = Some row ->
  (status row = "completed" -> is_Some (result row)) /\
  (status row = "failed" -> is_Some (error_message row)) /\
  (is_terminal (status row) = false ->
     status row = "pending" /\ result row = None /\ error_message row = None).
Proof.
  intros Hrow. pose proof (reachable_row_ok ops task_id row Hrow) as Hok.
  unfold is_terminal.
  destruct Hok as [(Hs & Hr & He & _)|[(Hs & Hr & _)|(Hs & He & _)]];
    rewrite Hs; repeat split; try discriminate; auto.
Qed.

Lemma result_error_by_status_witness :
  ("completed" = "completed" -> is_Some (Some 7)) /\
  ("completed" = "failed" -> is_Some (Some "boom")) /\
  (is_terminal "completed" = false ->
     "completed" = "pending" /\ Some 7 = None /\ Some "boom" = None).
Proof.
  apply (result_error_by_status
           [CreateTask "t" 0; MarkTaskFailed "t" "boom" 1; SaveResult "t" 7 2]
           "t"
           {| status := "completed"; result := Some 7;
              error_message := Some "boom";
              created_at := Some 0; completed_at := Some 2 |}).
  vm_compute. reflexivity.
Defined.

(** * The worker *)
Section Worker.
Context `{PyRuntime}.
Implicit Types (env : Tasks.attempt_env) (req : Celery.request).
Implicit Types (c : Tasks.config) (db : tasks_table).

Lemma exec_S_r env req k c :
  Tasks.exec env req (S k) c = Tasks.step env req (Tasks.exec env req k c).
Proof.
  revert c. induction k as [|k IH]; intros c; [reflexivity|].
  change (Tasks.exec env req (S (S k)) c)
    with (Tasks.exec env req (S k) (Tasks.step env req c)).
  rewrite IH. reflexivity.
Qed.

Lemma exec_add env req a b c :
  Tasks.exec env req (a + b) c = Tasks.exec env req b (Tasks.exec env req a c).
Proof.
  revert c. induction a as [|a IH]; intros c; [reflexivity|]. cbn. apply IH.
Qed.

Lemma exec_finished env req k c f :
  Tasks.at_pc c = Tasks.Finished f -> Tasks.exec env req k c = c.
Proof.
  intros Hf. induction k as [|k IH]; [reflexivity|]. cbn.
  replace (Tasks.step env req c) with c; [exact IH|].
  unfold Tasks.step. rewrite Hf. reflexivity.
Qed.

(** [j] rounds of the loop without an exception: the store is not touched. *)
Lemma exec_loop env req j : forall i c,
  Tasks.at_pc c = Tasks.InLoop i ->
  (i + j <= Tasks.rounds env)%nat ->
  (forall x, (i <= x < i + j)%nat -> Tasks.raises_at env x = None) ->
  Tasks.at_pc (Tasks.exec env req j c) = Tasks.InLoop (i + j) /\
  Tasks.db (Tasks.exec env req j c) = Tasks.db c.
Proof.
  induction j as [|j IH]; intros i c Hpc Hle Hclean.
  - cbn. rewrite Nat.add_0_r. auto.
  - cbn [Tasks.exec].
    assert (Hstep : Tasks.at_pc (Tasks.step env req c) = Tasks.InLoop (S i) /\
                    Tasks.db (Tasks.step env req c) = Tasks.db c).
    { unfold Tasks.step. rewrite Hpc.
      destruct (Nat.ltb_spec i (Tasks.rounds env)) as [_|Hge]; [|lia].
      rewrite (Hclean i) by lia. cbn. auto. }
    destruct Hstep as [Hpc' Hdb'].
    destruct (IH (S i) _ Hpc') as [Hp Hd]; [lia| |].
    + intros x Hx. apply Hclean. lia.
    + rewrite Hp, Hd, Hdb'. split; [f_equal; lia|reflexivity].
Qed.

Lemma raises_at_clean env i :
  Tasks.faulty env = false -> (i <= Tasks.rounds env)%nat ->
  Tasks.raises_at env i = None.
Proof.
  unfold Tasks.faulty, Tasks.raises_at. intros Hf Hi.
  destruct (Tasks.fault env) as [[k msg]|]; [|reflexivity].
  apply Nat.leb_gt in Hf.
  destruct (Nat.eqb_spec k i); [lia|reflexivity].
Qed.

Lemma raises_at_fault env k msg i :
  Tasks.fault env = Some (k, msg) ->
  Tasks.raises_at env i = if (k =? i)%nat then Some msg else None.
Proof. unfold Tasks.raises_at. intros ->. reflexivity. Qed.

Lemma step_loop_exit env req c i :
  Tasks.at_pc c = Tasks.InLoop i -> (Tasks.rounds env <= i)%nat ->
  Tasks.step env req c = Tasks.goto Tasks.AtResult c.
Proof.
  intros Hpc Hi. unfold Tasks.step. rewrite Hpc.
  destruct (Nat.ltb_spec i (Tasks.rounds env)); [lia|reflexivity].
Qed.

Lemma step_loop_raise env req c i msg :
  Tasks.at_pc c = Tasks.InLoop i -> (i < Tasks.rounds env)%nat ->
  Tasks.raises_at env i = Some msg ->
  Tasks.step env req c = Tasks.goto (Tasks.InExcept msg) c.
Proof.
  intros Hpc Hi Hr. unfold Tasks.step. rewrite Hpc, Hr.
  destruct (Nat.ltb_spec i (Tasks.rounds env)); [reflexivity|lia].
Qed.

Lemma step_result_raise env req c msg :
  Tasks.at_pc c = Tasks.AtResult ->
  Tasks.raises_at env (Tasks.rounds env) = Some msg ->
  Tasks.step env req c = Tasks.goto (Tasks.InExcept msg) c.
Proof. intros Hpc Hr. unfold Tasks.step. rewrite Hpc, Hr. reflexivity. Qed.

Lemma step_result_save env req c :
  Tasks.at_pc c = Tasks.AtResult ->
  Tasks.raises_at env (Tasks.rounds env) = None ->
  let result := Tasks.compute_result (Celery.data req) in
  Tasks.at_pc (Tasks.step env req c) =
    Tasks.Finished (Tasks.Succeeded
      {| Tasks.ret_task_id := Celery.task_id req;
         Tasks.ret_result := result;
         Tasks.ret_status := "completed";
         Tasks.ret_message := "Task completed successfully" |}) /\
  Tasks.db (Tasks.step env req c) =
    commit (Tasks.db c)
      (save_result (Celery.task_id req) result (Tasks.utcnow env) (Tasks.db c)).
Proof.
  intros Hpc Hr. unfold Tasks.step. rewrite Hpc, Hr. cbn. auto.
Qed.

Lemma step_except env req c msg :
  Tasks.at_pc c = Tasks.InExcept msg ->
  Tasks.at_pc (Tasks.step env req c) = Tasks.AtRetry msg /\
  Tasks.db (Tasks.step env req c) =
    commit (Tasks.db c)
      (mark_task_failed (Celery.task_id req) msg (Tasks.utcnow env) (Tasks.db c)).
Proof. intros Hpc. unfold Tasks.step. rewrite Hpc. cbn. auto. Qed.

Lemma step_retry env req c msg :
  Tasks.at_pc c = Tasks.AtRetry msg ->
  Tasks.step env req c =
    Tasks.goto (Tasks.Finished (Tasks.Raised (Celery.retry req msg 60 3))) c.
Proof. intros Hpc. unfold Tasks.step. rewrite Hpc. reflexivity. Qed.

(** An execution in which nothing raises ends by returning, after the one
    write [save_result]. *)
Lemma heavy_computation_task_returns env req db :
  Tasks.faulty env = false ->
  let result := Tasks.compute_result (Celery.data req) in
  let c := Tasks.heavy_computation_task env req db in
  Tasks.at_pc c =
    Tasks.Finished (Tasks.Succeeded
      {| Tasks.ret_task_id := Celery.task_id req;
         Tasks.ret_result := result;
         Tasks.ret_status := "completed";
         Tasks.ret_message := "Task completed successfully" |}) /\
  Tasks.db c =
    commit db (save_result (Celery.task_id req) result (Tasks.utcnow env) db).
Proof.
  intros Hf result c. subst c. unfold Tasks.heavy_computation_task.
  replace (Tasks.rounds env + 4)%nat with (Tasks.rounds env + (2 + 2))%nat by lia.
  rewrite exec_add.
  destruct (exec_loop env req (Tasks.rounds env) 0 (Tasks.start db) eq_refl)
    as [Hpc Hdb]; [lia| |].
  { intros x Hx. apply raises_at_clean; [assumption|lia]. }
  cbn in Hpc, Hdb.
  set (c1 := Tasks.exec env req (Tasks.rounds env) (Tasks.start db)) in *.
  rewrite exec_add.
  pose proof (raises_at_clean env (Tasks.rounds env) Hf (Nat.le_refl _)) as Hr.
  destruct (step_result_save env req (Tasks.step env req c1)) as [Hp Hd].
  { rewrite (step_loop_exit env req c1 _ Hpc (Nat.le_refl _)). reflexivity. }
  { exact Hr. }
  rewrite (step_loop_exit env req c1 _ Hpc (Nat.le_refl _)) in Hd at 2 3.
  cbn [Tasks.goto Tasks.db] in Hd. rewrite Hdb in Hd.
  change (Tasks.exec env req 2 c1)
    with (Tasks.step env req (Tasks.step env req c1)).
  rewrite (exec_finished env req 2 _ _ Hp). auto.
Qed.

(** An execution in which statement [k] of the [try] block raises ends in
    [self.retry], after the one write [mark_task_failed]. *)
Lemma heavy_computation_task_raises env req db k msg :
  Tasks.fault env = Some (k, msg) ->
  (k <= Tasks.rounds env)%nat ->
  let c := Tasks.heavy_computation_task env req db in
  Tasks.at_pc c = Tasks.Finished (Tasks.Raised (Celery.retry req msg 60 3)) /\
  Tasks.db c =
    commit db (mark_task_failed (Celery.task_id req) msg (Tasks.utcnow env) db).
Proof.
  intros Hfault Hk c. subst c. unfold Tasks.heavy_computation_task.
  destruct (exec_loop env req k 0 (Tasks.start db) eq_refl) as [Hpc Hdb];
    [lia| |].
  { intros x Hx. rewrite (raises_at_fault env k msg x Hfault).
    destruct (Nat.eqb_spec k x); [lia|reflexivity]. }
  cbn in Hpc, Hdb.
  set (c1 := Tasks.exec env req k (Tasks.start db)) in *.
  assert (Hraise : Tasks.raises_at env k = Some msg).
  { rewrite (raises_at_fault env k msg k Hfault), Nat.eqb_refl. reflexivity. }
  assert (Hexc : exists j, (k + j + 2 <= Tasks.rounds env + 4)%nat /\
            Tasks.at_pc (Tasks.exec env req j c1) = Tasks.InExcept msg /\
            Tasks.db (Tasks.exec env req j c1) = db).
  { destruct (Nat.ltb_spec k (Tasks.rounds env)) as [Hlt|Hge].
    - exists 1%nat. split; [lia|]. cbn [Tasks.exec].
      rewrite (step_loop_raise env req c1 k msg Hpc Hlt Hraise). cbn. auto.
    - assert (k = Tasks.rounds env) as Hkr by lia.
      exists 2%nat. split; [lia|]. cbn [Tasks.exec].
      rewrite (step_loop_exit env req c1 k Hpc Hge).
      rewrite (step_result_raise env req (Tasks.goto Tasks.AtResult c1) msg);
        [cbn; auto|reflexivity|].
      rewrite <- Hkr. exact Hraise. }
  destruct Hexc as (j & Hj & Hp & Hd).
  replace (Tasks.rounds env + 4)%nat
    with (k + (j + (2 + (Tasks.rounds env + 4 - (k + j + 2)))))%nat by lia.
  rewrite exec_add. fold c1. rewrite exec_add.
  set (c2 := Tasks.exec env req j c1) in *.
  rewrite exec_add.
  destruct (step_except env req c2 msg Hp) as [Hp1 Hd1].
  rewrite Hd in Hd1.
  change (Tasks.exec env req 2 c2)
    with (Tasks.step env req (Tasks.step env req c2)).
  rewrite (step_retry env req _ msg Hp1).
  rewrite (exec_finished env req _
             (Tasks.goto (Tasks.Finished
                (Tasks.Raised (Celery.retry req msg 60 3))) _) _ eq_refl).
  cbn [Tasks.goto Tasks.at_pc Tasks.db]. auto.
Qed.

(** While the control is inside the [try] block the store is as the
    execution found it. *)
Lemma step_in_try env req c :
  Tasks.in_try (Tasks.at_pc (Tasks.step env req c)) = true ->
  Tasks.in_try (Tasks.at_pc c) = true /\
  Tasks.db (Tasks.step env req c) = Tasks.db c.
Proof.
  unfold Tasks.step. destruct (Tasks.at_pc c) as [i| |msg|msg|f] eqn:Hpc.
  - intros _. split; [reflexivity|].
    destruct (i <? Tasks.rounds env)%nat; [|reflexivity].
    destruct (Tasks.raises_at env i); reflexivity.
  - destruct (Tasks.raises_at env (Tasks.rounds env)); cbn; discriminate.
  - cbn. discriminate.
  - cbn. discriminate.
  - rewrite Hpc. cbn. discriminate.
Qed.

Lemma exec_in_try env req db k :
  Tasks.in_try (Tasks.at_pc (Tasks.exec env req k (Tasks.start db))) = true ->
  Tasks.db (Tasks.exec env req k (Tasks.start db)) = db.
Proof.
  induction k as [|k IH]; [reflexivity|]. rewrite exec_S_r. intros Hin.
  apply step_in_try in Hin as [Hin ->]. apply IH, Hin.
Qed.

Lemma deliver_raises env m rest db log k msg :
  Tasks.fault env = Some (k, msg) ->
  (k <= Tasks.rounds env)%nat ->
  deliver env ({| store := db; broker := m :: rest |}, log) =
    ({| store := commit db (mark_task_failed (Celery.task_id (Celery.body m))
                              msg (Tasks.utcnow env) db);
        broker := (rest ++
                   match Celery.retry (Celery.body m) msg 60 3 with
                   | Celery.Retry _ m' => [m']
                   | Celery.Reraise _ => []
                   end)%list |},
     (log ++ [Tasks.Raised (Celery.retry (Celery.body m) msg 60 3)])%list).
Proof.
  intros Hfault Hk. unfold deliver. cbn [broker store].
  destruct (heavy_computation_task_raises env (Celery.body m) db k msg Hfault Hk)
    as [Hp Hd].
  rewrite Hp, Hd. reflexivity.
Qed.

End Worker.

(** Every execution ends, within the steps [heavy_computation_task] runs. *)
Lemma heavy_computation_task_finishes `{PyRuntime}
    (env : Tasks.attempt_env) (req : Celery.request) (db : tasks_table) :
  exists f,
    Tasks.at_pc (Tasks.heavy_computation_task env req db) = Tasks.Finished f.
Proof.
  destruct (Tasks.faulty env) eqn:Hf.
  - unfold Tasks.faulty in Hf.
    destruct (Tasks.fault env) as [[k msg]|] eqn:Hfault; [|discriminate].
    apply Nat.leb_le in Hf.
    destruct (heavy_computation_task_raises env req db k msg Hfault Hf)
      as [Hp _].
    eauto.
  - destruct (heavy_computation_task_returns env req db Hf) as [Hp _]. eauto.
Qed.

(** [sum(range(n))] in closed form. *)
Lemma sum_range_closed (n : N) :
  2 * Tasks.sum_range n = Z.of_N n * (Z.of_N n - 1).
Proof.
  unfold Tasks.sum_range.
  set (f := fun '(i, acc) => (i + 1, acc + i)).
  assert (Hinv : fst (N.iter n f (0, 0)) = Z.of_N n /\
                 2 * snd (N.iter n f (0, 0)) = Z.of_N n * (Z.of_N n - 1)).
  { induction n as [|n IH] using N.peano_ind; [split; reflexivity|].
    rewrite N.iter_succ. destruct (N.iter n f (0, 0)) as [i acc].
    cbn [fst snd] in IH. destruct IH as [-> IH]. cbn [f fst snd].
    rewrite N2Z.inj_succ. split; lia. }
  apply Hinv.
Qed.

Lemma sum_range_million : Tasks.sum_range 1000000 = 499999500000.
Proof.
  pose proof (sum_range_closed 1000000) as Hc.
  change (Z.of_N 1000000) with 1000000 in Hc. lia.
Qed.

(** ** A failed execution and the store *)

(** C2, counterexample. The task "t" is pending and is executed for the
    first time (no retry made yet, three remain); round 2 of the loop
    raises "boom". The execution ends in [Retry], the message is published
    again with delay 60, and the store already shows the task as failed: a
    Query before the retry runs returns status failed. *)
Lemma failed_visible_while_retry_pending :
  let env := {| Tasks.rounds := 5; Tasks.utcnow := 1;
                Tasks.fault := Some (2%nat, "boom") |} in
  let req := {| Celery.task_id := "t"; Celery.data := None;
                Celery.retries := 0 |} in
  let db := run_ops [CreateTask "t" 0] ∅ in
  let c := Tasks.heavy_computation_task (H := sample_runtime) env req db in
  Tasks.at_pc c =
    Tasks.Finished (Tasks.Raised (Celery.Retry "boom"
      {| Celery.body := {| Celery.task_id := "t"; Celery.data := None;
                           Celery.retries := 1 |};
         Celery.countdown := 60 |})) /\
  Main.get_task_status (H := sample_runtime) "t" (Tasks.db c) =
    Return {| Main.TaskStatusResponse.task_id := "t";
              Main.TaskStatusResponse.status := "failed";
              Main.TaskStatusResponse.result := None;
              Main.TaskStatusResponse.error_message := Some "boom";
              Main.TaskStatusResponse.created_at := Some "0";
              Main.TaskStatusResponse.completed_at := Some "1" |}.
Proof. cbv zeta. split; vm_compute; reflexivity. Qed.

(** C2, as the code has it. Whenever a statement of the [try] block raises,
    whether retries remain or not, the task writes [failed] with the error
    message to the record before it calls [retry]: at the end of the
    execution a Query returns status failed with that message, also when
    fewer than three retries were made and the message is on its way back
    to the worker. *)
Theorem failure_recorded_before_retry `{PyRuntime}
    (env : Tasks.attempt_env) (req : Celery.request) (db : tasks_table)
    (k : nat) (msg : string) (row : task) :
  Tasks.fault env = Some (k, msg) ->
  (k <= Tasks.rounds env)%nat ->
  db !! Celery.task_id req = Some row ->
  let c := Tasks.heavy_computation_task env req db in
  Main.get_task_status (Celery.task_id req) (Tasks.db c) =
    Return {| Main.TaskStatusResponse.task_id := Celery.task_id req;
              Main.TaskStatusResponse.status := "failed";
              Main.TaskStatusResponse.result := result row;
              Main.TaskStatusResponse.error_message := Some msg;
              Main.TaskStatusResponse.created_at := isoformat <$> created_at row;
              Main.TaskStatusResponse.completed_at :=
                Some (isoformat (Tasks.utcnow env)) |} /\
  ((Celery.retries req < 3)%nat ->
   exists m, Tasks.at_pc c = Tasks.Finished (Tasks.Raised (Celery.Retry msg m))).
Proof.
  intros Hfault Hk Hrow c.
  destruct (heavy_computation_task_raises env req db k msg Hfault Hk)
    as [Hp Hd].
  fold c in Hp, Hd. split.
  - unfold Main.get_task_status, get_task. rewrite Hd.
    rewrite (mark_task_failed_lookup db _ msg _ row Hrow). reflexivity.
  - intros Hlt. rewrite Hp. unfold Celery.retry.
    destruct (Nat.ltb_spec 3 (S (Celery.retries req))); [lia|]. eauto.
Qed.

Lemma failure_recorded_before_retry_witness :
  let env := {| Tasks.rounds := 5; Tasks.utcnow := 1;
                Tasks.fault := Some (2%nat, "boom") |} in
  let req := {| Celery.task_id := "t"; Celery.data := None;
                Celery.retries := 0 |} in
  let db : tasks_table :=
    {["t" := {| status := "pending"; result := None; error_message := None;
               created_at := Some 0; completed_at := None |}]} in
  let c := Tasks.heavy_computation_task (H := sample_runtime) env req db in
  Main.get_task_status (H := sample_runtime) "t" (Tasks.db c) =
    Return {| Main.TaskStatusResponse.task_id := "t";
              Main.TaskStatusResponse.status := "failed";
              Main.TaskStatusResponse.result := None;
              Main.TaskStatusResponse.error_message := Some "boom";
              Main.TaskStatusResponse.created_at :=
                isoformat (PyRuntime := sample_runtime) <$> Some 0;
              Main.TaskStatusResponse.completed_at :=
                Some (isoformat (PyRuntime := sample_runtime) 1) |} /\
  ((0 < 3)%nat ->
   exists m, Tasks.at_pc c = Tasks.Finished (Tasks.Raised (Celery.Retry "boom" m))).
Proof.
  cbv zeta.
  refine (failure_recorded_before_retry (H := sample_runtime)
            {| Tasks.rounds := 5; Tasks.utcnow := 1;
               Tasks.fault := Some (2%nat, "boom") |}
            {| Celery.task_id := "t"; Celery.data := None;
               Celery.retries := 0 |}
            _ 2%nat "boom"
            {| status := "pending"; result := None; error_message := None;
               created_at := Some 0; completed_at := None |}
            eq_refl _ _).
  - cbn. lia.
  - vm_compute. reflexivity.
Defined.

(** ** The store while the workload runs *)

(** C5, counterexample. The task "t" is pending when a worker starts to
    execute it. After three steps the control is at the head of the loop
    with three rounds done, and a Query returns status pending: the record
    was not moved to another status when the worker took the task. *)
Lemma pending_while_running :
  let env := {| Tasks.rounds := 5; Tasks.utcnow := 9; Tasks.fault := None |} in
  let req := {| Celery.task_id := "t"; Celery.data := None;
                Celery.retries := 0 |} in
  let db := run_ops [CreateTask "t" 0] ∅ in
  Tasks.at_pc (Tasks.exec (H := sample_runtime) env req 3 (Tasks.start db)) =
    Tasks.InLoop 3 /\
  Main.get_task_status (H := sample_runtime) "t"
      (Tasks.db_at (H := sample_runtime) env req db 3) =
    Return {| Main.TaskStatusResponse.task_id := "t";
              Main.TaskStatusResponse.status := "pending";
              Main.TaskStatusResponse.result := None;
              Main.TaskStatusResponse.error_message := None;
              Main.TaskStatusResponse.created_at := Some "0";
              Main.TaskStatusResponse.completed_at := None |}.
Proof. cbv zeta. split; vm_compute; reflexivity. Qed.

(** C5, as the code has it. Taking a task and running its workload writes
    nothing to the store: as long as the control is inside the [try] block
    (in the loop or at the computation) the table is the one the execution
    started with, so a Query during execution returns what it returned
    before the worker took the task, status pending for a new one. *)
Theorem store_unchanged_while_running `{PyRuntime}
    (env : Tasks.attempt_env) (req : Celery.request) (db : tasks_table)
    (k : nat) :
  Tasks.in_try (Tasks.at_pc (Tasks.exec env req k (Tasks.start db))) = true ->
  Tasks.db_at env req db k = db /\
  Main.get_task_status (Celery.task_id req) (Tasks.db_at env req db k) =
    Main.get_task_status (Celery.task_id req) db.
Proof.
  intros Hin. unfold Tasks.db_at.
  rewrite (exec_in_try env req db k Hin). auto.
Qed.

Lemma store_unchanged_while_running_witness :
  let env := {| Tasks.rounds := 5; Tasks.utcnow := 9; Tasks.fault := None |} in
  let req := {| Celery.task_id := "t"; Celery.data := None;
                Celery.retries := 0 |} in
  let db : tasks_table :=
    {["t" := {| status := "pending"; result := None; error_message := None;
               created_at := Some 0; completed_at := None |}]} in
  Tasks.db_at (H := sample_runtime) env req db 3 = db /\
  Main.get_task_status (H := sample_runtime) (Celery.task_id req)
      (Tasks.db_at (H := sample_runtime) env req db 3) =
    Main.get_task_status (H := sample_runtime) (Celery.task_id req) db.
Proof.
  cbv zeta.
  apply (store_unchanged_while_running (H := sample_runtime)).
  vm_compute. reflexivity.
Defined.

(** ** The retry policy *)

(** Four executions that all raise: three end in [Retry], the fourth
    re-raises the error and publishes nothing. *)
Lemma run_worker_four_failures `{PyRuntime}
    (e1 e2 e3 e4 : Tasks.attempt_env) (k1 k2 k3 k4 : nat)
    (msg1 msg2 msg3 msg4 : string) (db : tasks_table)
    (task_id : string) (data : option dict) :
  Tasks.fault e1 = Some (k1, msg1) -> (k1 <= Tasks.rounds e1)%nat ->
  Tasks.fault e2 = Some (k2, msg2) -> (k2 <= Tasks.rounds e2)%nat ->
  Tasks.fault e3 = Some (k3, msg3) -> (k3 <= Tasks.rounds e3)%nat ->
  Tasks.fault e4 = Some (k4, msg4) -> (k4 <= Tasks.rounds e4)%nat ->
  let again n := {| Celery.body := {| Celery.task_id := task_id;
                                      Celery.data := data;
                                      Celery.retries := n |};
                    Celery.countdown := 60 |} in
  let failed msg now db := commit db (mark_task_failed task_id msg now db) in
  run_worker [e1; e2; e3; e4]
      {| store := db; broker := [Celery.delay task_id data] |} =
    ({| store := failed msg4 (Tasks.utcnow e4)
                   (failed msg3 (Tasks.utcnow e3)
                      (failed msg2 (Tasks.utcnow e2)
                         (failed msg1 (Tasks.utcnow e1) db)));
        broker := [] |},
     [Tasks.Raised (Celery.Retry msg1 (again 1%nat));
      Tasks.Raised (Celery.Retry msg2 (again 2%nat));
      Tasks.Raised (Celery.Retry msg3 (again 3%nat));
      Tasks.Raised (Celery.Reraise msg4)]).
Proof.
  intros F1 K1 F2 K2 F3 K3 F4 K4 again failed. unfold run_worker.
  cbn [fold_left].
  rewrite (deliver_raises e1 _ _ _ _ k1 msg1 F1 K1). cbn [app Celery.retry
    Celery.delay Celery.body Celery.retries Celery.task_id Celery.data Nat.ltb
    Nat.leb].
  rewrite (deliver_raises e2 _ _ _ _ k2 msg2 F2 K2). cbn [app Celery.retry
    Celery.delay Celery.body Celery.retries Celery.task_id Celery.data Nat.ltb
    Nat.leb].
  rewrite (deliver_raises e3 _ _ _ _ k3 msg3 F3 K3). cbn [app Celery.retry
    Celery.delay Celery.body Celery.retries Celery.task_id Celery.data Nat.ltb
    Nat.leb].
  rewrite (deliver_raises e4 _ _ _ _ k4 msg4 F4 K4). reflexivity.
Qed.

(** C8, counterexample. The task "t" is pending and every execution raises
    the error "boom". After the first delivery, with the message back on the
    broker for its first retry, the record is already failed; and three
    retries follow the first execution, so the task is executed four times
    before the error is re-raised. *)
Lemma failed_before_retries_exhausted :
  let env now := {| Tasks.rounds := 5; Tasks.utcnow := now;
                    Tasks.fault := Some (0%nat, "boom") |} in
  let w := {| store := run_ops [CreateTask "t" 0] ∅;
              broker := [Celery.delay "t" None] |} in
  let again n := {| Celery.body := {| Celery.task_id := "t";
                                      Celery.data := None;
                                      Celery.retries := n |};
                    Celery.countdown := 60 |} in
  let w1 := fst (run_worker (H := sample_runtime) [env 1] w) in
  broker w1 = [again 1%nat] /\
  store w1 !! "t" =
    Some {| status := "failed"; result := None; error_message := Some "boom";
            created_at := Some 0; completed_at := Some 1 |} /\
  snd (run_worker (H := sample_runtime) [env 1; env 2; env 3; env 4] w) =
    [Tasks.Raised (Celery.Retry "boom" (again 1%nat));
     Tasks.Raised (Celery.Retry "boom" (again 2%nat));
     Tasks.Raised (Celery.Retry "boom" (again 3%nat));
     Tasks.Raised (Celery.Reraise "boom")].
Proof. cbv zeta. repeat split; vm_compute; reflexivity. Qed.

(** C8, as the code has it. On every execution failure the task first
    writes [failed] with the error to the store and then calls [retry] with
    a delay of 60 and [max_retries] 3: while fewer than three retries were
    made, the message is published again with delay 60 and one more retry
    counted; once three retries were made, the error is re-raised and
    nothing is published, the record staying failed with that last error. *)
Theorem retry_policy_on_failure `{PyRuntime}
    (env : Tasks.attempt_env) (req : Celery.request) (db : tasks_table)
    (k : nat) (msg : string) :
  Tasks.fault env = Some (k, msg) ->
  (k <= Tasks.rounds env)%nat ->
  let c := Tasks.heavy_computation_task env req db in
  Tasks.db c =
    commit db (mark_task_failed (Celery.task_id req) msg (Tasks.utcnow env) db) /\
  ((Celery.retries req < 3)%nat ->
   Tasks.at_pc c =
     Tasks.Finished (Tasks.Raised (Celery.Retry msg
       {| Celery.body := {| Celery.task_id := Celery.task_id req;
                            Celery.data := Celery.data req;
                            Celery.retries := S (Celery.retries req) |};
          Celery.countdown := 60 |}))) /\
  ((3 <= Celery.retries req)%nat ->
   Tasks.at_pc c = Tasks.Finished (Tasks.Raised (Celery.Reraise msg))).
Proof.
  intros Hfault Hk c.
  destruct (heavy_computation_task_raises env req db k msg Hfault Hk)
    as [Hp Hd].
  fold c in Hp, Hd. split; [exact Hd|].
  rewrite Hp. unfold Celery.retry.
  destruct (Nat.ltb_spec 3 (S (Celery.retries req))); split; intros; try lia;
    reflexivity.
Qed.

Lemma retry_policy_on_failure_witness :
  let env := {| Tasks.rounds := 5; Tasks.utcnow := 4;
                Tasks.fault := Some (5%nat, "boom") |} in
  let req := {| Celery.task_id := "t"; Celery.data := None;
                Celery.retries := 3 |} in
  let db : tasks_table :=
    {["t" := {| status := "failed"; result := None;
               error_message := Some "boom";
               created_at := Some 0; completed_at := Some 3 |}]} in
  let c := Tasks.heavy_computation_task (H := sample_runtime) env req db in
  Tasks.db c =
    commit db (mark_task_failed (Celery.task_id req) "boom" (Tasks.utcnow env) db) /\
  ((Celery.retries req < 3)%nat ->
   Tasks.at_pc c =
     Tasks.Finished (Tasks.Raised (Celery.Retry "boom"
       {| Celery.body := {| Celery.task_id := Celery.task_id req;
                            Celery.data := Celery.data req;
                            Celery.retries := S (Celery.retries req) |};
          Celery.countdown := 60 |}))) /\
  ((3 <= Celery.retries req)%nat ->
   Tasks.at_pc c = Tasks.Finished (Tasks.Raised (Celery.Reraise "boom"))).
Proof.
  cbv zeta.
  apply (retry_policy_on_failure (H := sample_runtime) _ _ _ 5%nat "boom").
  - reflexivity.
  - cbn. lia.
Defined.

(** ** The value computed *)

Lemma compute_result_range `{PyRuntime} (data : option dict) :
  499999500000 <= Tasks.compute_result data < 499999500000 + 1000.
Proof.
  unfold Tasks.compute_result. rewrite sum_range_million.
  destruct data as [[|kv d]|]; try lia.
  pose proof (Z.mod_pos_bound (py_hash (py_str (kv :: d))) 1000 eq_refl).
  lia.
Qed.

(** C9. An execution in which nothing raises stores, for a task that has a
    record, the value it returns. With no payload or an empty one that value
    is the sum of 0, 1, ..., 999999, which is 499999500000; with a payload
    that is not empty it is this sum plus the hash of the payload's string
    form modulo 1000, a number from 0 to 999. *)
Theorem stored_result_of_successful_execution `{PyRuntime}
    (env : Tasks.attempt_env) (req : Celery.request) (db : tasks_table)
    (row : task) :
  Tasks.faulty env = false ->
  db !! Celery.task_id req = Some row ->
  let c := Tasks.heavy_computation_task env req db in
  exists r : Z,
    Tasks.at_pc c =
      Tasks.Finished (Tasks.Succeeded
        {| Tasks.ret_task_id := Celery.task_id req;
           Tasks.ret_result := r;
           Tasks.ret_status := "completed";
           Tasks.ret_message := "Task completed successfully" |}) /\
    Tasks.db c !! Celery.task_id req =
      Some {| status := "completed"; result := Some r;
              error_message := error_message row;
              created_at := created_at row;
              completed_at := Some (Tasks.utcnow env) |} /\
    Tasks.sum_range 1000000 = 499999500000 /\
    match Celery.data req with
    | None | Some [] => r = 499999500000
    | Some d =>
        r = 499999500000 + py_hash (py_str d) mod 1000 /\
        0 <= py_hash (py_str d) mod 1000 < 1000
    end.
Proof.
  intros Hf Hrow c.
  destruct (heavy_computation_task_returns env req db Hf) as [Hp Hd].
  fold c in Hp, Hd.
  exists (Tasks.compute_result (Celery.data req)).
  split; [exact Hp|]. split; [|split].
  - rewrite Hd. apply save_result_lookup, Hrow.
  - exact sum_range_million.
  - unfold Tasks.compute_result. rewrite sum_range_million.
    destruct (Celery.data req) as [[|kv d]|]; try reflexivity.
    split; [reflexivity|]. apply Z.mod_pos_bound. lia.
Qed.

Lemma stored_result_of_successful_execution_witness :
  let env := {| Tasks.rounds := 5; Tasks.utcnow := 9; Tasks.fault := None |} in
  let req := {| Celery.task_id := "t";
                Celery.data := Some [("x", JNum 1)];
                Celery.retries := 0 |} in
  let row := {| status := "pending"; result := None; error_message := None;
                created_at := Some 0; completed_at := None |} in
  let db : tasks_table := {["t" := row]} in
  let c := Tasks.heavy_computation_task (H := sample_runtime) env req db in
  exists r : Z,
    Tasks.at_pc c =
      Tasks.Finished (Tasks.Succeeded
        {| Tasks.ret_task_id := Celery.task_id req;
           Tasks.ret_result := r;
           Tasks.ret_status := "completed";
           Tasks.ret_message := "Task completed successfully" |}) /\
    Tasks.db c !! Celery.task_id req =
      Some {| status := "completed"; result := Some r;
              error_message := error_message row;
              created_at := created_at row;
              completed_at := Some (Tasks.utcnow env) |} /\
    Tasks.sum_range 1000000 = 499999500000 /\
    match Celery.data req with
    | None | Some [] => r = 499999500000
    | Some d =>
        r = 499999500000 +
            py_hash (PyRuntime := sample_runtime)
              (py_str (PyRuntime := sample_runtime) d) mod 1000 /\
        0 <= py_hash (PyRuntime := sample_runtime)
               (py_str (PyRuntime := sample_runtime) d) mod 1000 < 1000
    end.
Proof.
  cbv zeta.
  apply (stored_result_of_successful_execution (H := sample_runtime)
           {| Tasks.rounds := 5; Tasks.utcnow := 9; Tasks.fault := None |}
           {| Celery.task_id := "t"; Celery.data := Some [("x", JNum 1)];
              Celery.retries := 0 |}
           {["t" := {| status := "pending"; result := None;
                       error_message := None; created_at := Some 0;
                       completed_at := None |}]}
           {| status := "pending"; result := None; error_message := None;
              created_at := Some 0; completed_at := None |}).
  - reflexivity.
  - apply lookup_singleton_eq.
Defined.

(** * The gateway *)

(** ** Submit *)

(** C6. A Submit call whose identifier is new to the store creates the
    record with status pending, publishes the work, and returns the
    identifier with status "pending" and a message; the record is in the
    store that the call leaves behind, and a Query on that store returns
    status pending. *)
Theorem submit_then_query_pending `{PyRuntime}
    (uuid4 : string) (now : datetime) (task_data : Main.TaskData) (w : world) :
  store w !! uuid4 = None ->
  exists w',
    Main.process_task uuid4 now task_data w =
      (Return {| Main.TaskResponse.task_id := uuid4;
                 Main.TaskResponse.status := "pending";
                 Main.TaskResponse.message := "Task queued for processing" |},
       w') /\
    store w' !! uuid4 =
      Some {| status := "pending"; result := None; error_message := None;
              created_at := Some now; completed_at := None |} /\
    (forall other, uuid4 <> other -> store w' !! other = store w !! other) /\
    broker w' = (broker w ++ [Celery.delay uuid4 (Main.data task_data)])%list /\
    Main.get_task_status uuid4 (store w') =
      Return {| Main.TaskStatusResponse.task_id := uuid4;
                Main.TaskStatusResponse.status := "pending";
                Main.TaskStatusResponse.result := None;
                Main.TaskStatusResponse.error_message := None;
                Main.TaskStatusResponse.created_at := Some (isoformat now);
                Main.TaskStatusResponse.completed_at := None |}.
Proof.
  intros Hfresh. unfold Main.process_task, create_task. rewrite Hfresh.
  eexists. split; [reflexivity|]. cbn [store broker].
  split; [apply lookup_insert_eq|]. split; [|split; [reflexivity|]].
  - intros other Hne. apply lookup_insert_ne, Hne.
  - unfold Main.get_task_status, get_task. rewrite lookup_insert_eq.
    reflexivity.
Qed.

Lemma submit_then_query_pending_witness :
  exists w',
    Main.process_task "6f1c" 5 {| Main.data := Some [("x", JNum 1)] |}
        {| store := ∅; broker := [] |} =
      (Return {| Main.TaskResponse.task_id := "6f1c";
                 Main.TaskResponse.status := "pending";
                 Main.TaskResponse.message := "Task queued for processing" |},
       w') /\
    store w' !! "6f1c" =
      Some {| status := "pending"; result := None; error_message := None;
              created_at := Some 5; completed_at := None |} /\
    (forall other, "6f1c" <> other ->
       store w' !! other = store {| store := ∅; broker := [] |} !! other) /\
    broker w' =
      (broker {| store := ∅; broker := [] |} ++
       [Celery.delay "6f1c"
          (Main.data {| Main.data := Some [("x", JNum 1)] |})])%list /\
    Main.get_task_status (H := sample_runtime) "6f1c" (store w') =
      Return {| Main.TaskStatusResponse.task_id := "6f1c";
                Main.TaskStatusResponse.status := "pending";
                Main.TaskStatusResponse.result := None;
                Main.TaskStatusResponse.error_message := None;
                Main.TaskStatusResponse.created_at :=
                  Some (isoformat (PyRuntime := sample_runtime) 5);
                Main.TaskStatusResponse.completed_at := None |}.
Proof.
  apply (submit_then_query_pending (H := sample_runtime) "6f1c" 5
           {| Main.data := Some [("x", JNum 1)] |}
           {| store := ∅; broker := [] |}).
  apply lookup_empty.
Defined.

(** ** Query *)

(** C7. A Query for an id that has no record raises the HTTP error 404 with
    detail "Task not found"; a Query for an id that has a record returns the
    response built from the stored status, result and error message and the
    ISO form of the two timestamps. *)
Theorem query_not_found_or_stored `{PyRuntime}
    (task_id : string) (db : tasks_table) :
  (db !! task_id = None ->
   Main.get_task_status task_id db =
     Raise (HTTPException 404 "Task not found")) /\
  (forall row, db !! task_id = Some row ->
   Main.get_task_status task_id db =
     Return {| Main.TaskStatusResponse.task_id := task_id;
               Main.TaskStatusResponse.status := status row;
               Main.TaskStatusResponse.result := result row;
               Main.TaskStatusResponse.error_message := error_message row;
               Main.TaskStatusResponse.created_at :=
                 isoformat <$> created_at row;
               Main.TaskStatusResponse.completed_at :=
                 isoformat <$> completed_at row |}).
Proof.
  unfold Main.get_task_status, get_task. split.
  - intros ->. reflexivity.
  - intros row ->. reflexivity.
Qed.

Lemma query_not_found_or_stored_witness :
  let row := {| status := "completed"; result := Some 7;
                error_message := None;
                created_at := Some 0; completed_at := Some 1 |} in
  let db : tasks_table := {["t" := row]} in
  Main.get_task_status (H := sample_runtime) "u" db =
    Raise (HTTPException 404 "Task not found") /\
  Main.get_task_status (H := sample_runtime) "t" db =
    Return {| Main.TaskStatusResponse.task_id := "t";
              Main.TaskStatusResponse.status := "completed";
              Main.TaskStatusResponse.result := Some 7;
              Main.TaskStatusResponse.error_message := None;
              Main.TaskStatusResponse.created_at := Some "0";
              Main.TaskStatusResponse.completed_at := Some "1" |}.
Proof.
  cbv zeta. split.
  - refine (proj1 (query_not_found_or_stored (H := sample_runtime) "u" _) _).
    vm_compute. reflexivity.
  - refine (proj2 (query_not_found_or_stored (H := sample_runtime) "t" _)
              {| status := "completed"; result := Some 7;
                 error_message := None;
                 created_at := Some 0; completed_at := Some 1 |} _).
    vm_compute. reflexivity.
Defined.

(** * Further properties of the store *)

Set Warnings "-clear-no-such-hyp".

Lemma apply_op_keeps (o : op) (db : tasks_table) task_id row :
  db !! task_id = Some row ->
  exists row',
    commit db (apply_op o db) !! task_id = Some row' /\
    created_at row' = created_at row /\
    (is_terminal (status row) = true -> is_terminal (status row') = true) /\
    (is_Some (completed_at row) -> is_Some (completed_at row')).
Proof.
  intros Hrow. destruct o as [tid now|tid res now|tid msg now]; cbn.
  - unfold create_task. destruct (db !! tid) eqn:Hd; cbn; [eauto|].
    rewrite lookup_insert_ne by congruence. eauto.
  - rewrite lookup_alter. case_decide as Hj; [subst tid|eauto].
    rewrite Hrow. cbn. eexists. split; [reflexivity|]. cbn. eauto.
  - rewrite lookup_alter. case_decide as Hj; [subst tid|eauto].
    rewrite Hrow. cbn. eexists. split; [reflexivity|]. cbn. eauto.
Qed.

Lemma run_ops_keeps (ops : list op) : forall (db : tasks_table) task_id row,
  db !! task_id = Some row ->
  exists row',
    run_ops ops db !! task_id = Some row' /\
    created_at row' = created_at row /\
    (is_terminal (status row) = true -> is_terminal (status row') = true) /\
    (is_Some (completed_at row) -> is_Some (completed_at row')).
Proof.
  induction ops as [|o ops IH]; intros db task_id row Hrow; cbn.
  - exists row. auto.
  - destruct (apply_op_keeps o db task_id row Hrow)
      as (row1 & Hrow1 & Hc1 & Ht1 & Hs1).
    destruct (IH _ task_id row1 Hrow1) as (row2 & Hrow2 & Hc2 & Ht2 & Hs2).
    exists row2. split; [exact Hrow2|]. split; [congruence|]. auto.
Qed.

Lemma apply_op_dom (o : op) (db : tasks_table) :
  dom (commit db (apply_op o db)) =
  dom db ∪ match o with
           | CreateTask task_id _ => {[task_id]}
           | _ => ∅
           end.
Proof.
  destruct o as [tid now|tid res now|tid msg now]; cbn.
  - unfold create_task. destruct (db !! tid) eqn:Hd; cbn.
    + assert (tid ∈ dom db) by (apply elem_of_dom; eauto). set_solver.
    + rewrite dom_insert_L. set_solver.
  - rewrite dom_alter_L. set_solver.
  - rewrite dom_alter_L. set_solver.
Qed.

(** X1. A record is never removed and its [created_at] never changes:
    whatever writes follow, the id still has a record and the record has
    the [created_at] it was created with. *)
Theorem record_persists_created_at_fixed
    (ops : list op) (db : tasks_table) task_id row :
  db !! task_id = Some row ->
  exists row',
    run_ops ops db !! task_id = Some row' /\
    created_at row' = created_at row.
Proof.
  intros Hrow.
  destruct (run_ops_keeps ops db task_id row Hrow) as (row' & Hr & Hc & _).
  eauto.
Qed.

Lemma record_persists_created_at_fixed_witness :
  exists row',
    run_ops [SaveResult "t" 7 2; CreateTask "t" 3; MarkTaskFailed "t" "boom" 4]
      {["t" := {| status := "pending"; result := None; error_message := None;
                 created_at := Some 1; completed_at := None |}]} !! "t" =
      Some row' /\
    created_at row' =
      created_at {| status := "pending"; result := None;
                    error_message := None;
                    created_at := Some 1; completed_at := None |}.
Proof.
  apply (record_persists_created_at_fixed
           [SaveResult "t" 7 2; CreateTask "t" 3; MarkTaskFailed "t" "boom" 4]).
  apply lookup_singleton_eq.
Defined.

(** X2. A record that is completed or failed never goes back: after any
    further writes its status is still completed or failed, and a
    [completed_at] that was set is still set. *)
Theorem terminal_status_never_regresses
    (ops : list op) (db : tasks_table) task_id row :
  db !! task_id = Some row ->
  is_terminal (status row) = true ->
  exists row',
    run_ops ops db !! task_id = Some row' /\
    is_terminal (status row') = true /\
    (is_Some (completed_at row) -> is_Some (completed_at row')).
Proof.
  intros Hrow Hterm.
  destruct (run_ops_keeps ops db task_id row Hrow)
    as (row' & Hr & _ & Ht & Hs).
  eauto.
Qed.

Lemma terminal_status_never_regresses_witness :
  exists row',
    run_ops [CreateTask "t" 3; MarkTaskFailed "t" "boom" 4]
      {["t" := {| status := "completed"; result := Some 7;
                 error_message := None;
                 created_at := Some 1; completed_at := Some 2 |}]} !! "t" =
      Some row' /\
    is_terminal (status row') = true /\
    (is_Some (completed_at {| status := "completed"; result := Some 7;
                              error_message := None; created_at := Some 1;
                              completed_at := Some 2 |}) ->
     is_Some (completed_at row')).
Proof.
  apply (terminal_status_never_regresses
           [CreateTask "t" 3; MarkTaskFailed "t" "boom" 4]).
  - apply lookup_singleton_eq.
  - reflexivity.
Defined.

(** X3. In every table built from the empty one, the status of a record is
    one of the three strings the code writes: "pending", "completed" or
    "failed". *)
Theorem status_is_one_of_three (ops : list op) task_id :
  match run_ops ops ∅ !! task_id with
  | Some row =>
      status row = "pending" \/ status row = "completed" \/
      status row = "failed"
  | None => True
  end.
Proof.
  destruct (run_ops ops ∅ !! task_id) as [row|] eqn:Hrow; [|exact I].
  destruct (reachable_row_ok ops task_id row Hrow)
    as [(Hs & _)|[(Hs & _)|(Hs & _)]]; auto.
Qed.

(** X4. The ids that have a record are the ids the table started with and
    the ids [create_task] was called on: [save_result] and
    [mark_task_failed] never add an id, and nothing removes one. *)
Theorem store_ids_are_created_ids (ops : list op) (db : tasks_table) :
  dom (run_ops ops db) = dom db ∪ list_to_set (created_ids ops).
Proof.
  revert db. induction ops as [|o ops IH]; intros db.
  - cbn. set_solver.
  - cbn [run_ops]. rewrite IH, apply_op_dom.
    destruct o as [tid now|tid res now|tid msg now]; cbn [created_ids];
      set_solver.
Qed.

(** X5. Two writes of the same kind on one id leave the table exactly as
    the second alone would: the first [save_result] (or the first
    [mark_task_failed]) leaves no trace. *)
Theorem repeated_write_keeps_only_the_last
    (db : tasks_table) task_id (res1 res2 : Z) (msg1 msg2 : string)
    (now1 now2 : datetime) :
  run_ops [SaveResult task_id res1 now1; SaveResult task_id res2 now2] db =
    run_ops [SaveResult task_id res2 now2] db /\
  run_ops [MarkTaskFailed task_id msg1 now1;
           MarkTaskFailed task_id msg2 now2] db =
    run_ops [MarkTaskFailed task_id msg2 now2] db.
Proof.
  split; cbn; apply map_eq; intros j;
    (destruct (decide (task_id = j)) as [->|Hne];
     [rewrite !lookup_alter_eq; destruct (db !! j); reflexivity
     |rewrite !lookup_alter_ne by assumption; reflexivity]).
Qed.

(** X6. Writes on different ids do not interfere: two operations of the
    store that address different task ids give the same table in either
    order. *)
Theorem writes_on_distinct_ids_commute (o1 o2 : op) (db : tasks_table) :
  op_id o1 <> op_id o2 ->
  run_ops [o1; o2] db = run_ops [o2; o1] db.
Proof.
  intros Hne. cbn [run_ops].
  destruct o1 as [a n1|a r1 n1|a m1 n1], o2 as [b n2|b r2 n2|b m2 n2];
    cbn in Hne; cbn [apply_op]; unfold create_task;
    cbn [save_result mark_task_failed commit];
    rewrite ?lookup_alter_ne by congruence.
  - destruct (db !! a) eqn:Ha, (db !! b) eqn:Hb; cbn;
      rewrite ?lookup_insert_ne by congruence; rewrite ?Ha, ?Hb; cbn;
      try reflexivity.
    apply insert_insert_ne. congruence.
  - destruct (db !! a) eqn:Ha; cbn; [reflexivity|].
    apply map_eq. intros j. rewrite !lookup_alter, !lookup_insert.
    rewrite lookup_alter. repeat case_decide; subst; try congruence.
  - destruct (db !! a) eqn:Ha; cbn; [reflexivity|].
    apply map_eq. intros j. rewrite !lookup_alter, !lookup_insert.
    rewrite lookup_alter. repeat case_decide; subst; try congruence.
  - destruct (db !! b) eqn:Hb; cbn; [reflexivity|].
    apply map_eq. intros j. rewrite !lookup_alter, !lookup_insert.
    rewrite lookup_alter. repeat case_decide; subst; try congruence.
  - apply map_eq. intros j. rewrite !lookup_alter.
    repeat case_decide; subst; congruence.
  - apply map_eq. intros j. rewrite !lookup_alter.
    repeat case_decide; subst; congruence.
  - destruct (db !! b) eqn:Hb; cbn; [reflexivity|].
    apply map_eq. intros j. rewrite !lookup_alter, !lookup_insert.
    rewrite lookup_alter. repeat case_decide; subst; try congruence.
  - apply map_eq. intros j. rewrite !lookup_alter.
    repeat case_decide; subst; congruence.
  - apply map_eq. intros j. rewrite !lookup_alter.
    repeat case_decide; subst; congruence.
Qed.

Lemma writes_on_distinct_ids_commute_witness :
  run_ops [CreateTask "a" 1; MarkTaskFailed "b" "boom" 2]
    {["b" := {| status := "pending"; result := None; error_message := None;
               created_at := Some 0; completed_at := None |}]} =
  run_ops [MarkTaskFailed "b" "boom" 2; CreateTask "a" 1]
    {["b" := {| status := "pending"; result := None; error_message := None;
               created_at := Some 0; completed_at := None |}]}.
Proof.
  apply (writes_on_distinct_ids_commute
           (CreateTask "a" 1) (MarkTaskFailed "b" "boom" 2)).
  cbn. discriminate.
Defined.

(** * Further properties of the worker and the gateway *)

(** One execution makes exactly one write to the store. *)
Lemma heavy_computation_task_db `{PyRuntime}
    (env : Tasks.attempt_env) (req : Celery.request) (db : tasks_table) :
  Tasks.db (Tasks.heavy_computation_task env req db) =
    commit db (save_result (Celery.task_id req)
                 (Tasks.compute_result (Celery.data req)) (Tasks.utcnow env) db)
  \/
  exists msg,
    Tasks.db (Tasks.heavy_computation_task env req db) =
      commit db (mark_task_failed (Celery.task_id req) msg (Tasks.utcnow env) db).
Proof.
  destruct (Tasks.faulty env) eqn:Hf.
  - unfold Tasks.faulty in Hf.
    destruct (Tasks.fault env) as [[k msg]|] eqn:Hfault; [|discriminate].
    apply Nat.leb_le in Hf.
    destruct (heavy_computation_task_raises env req db k msg Hfault Hf)
      as [_ Hd].
    right. eauto.
  - destruct (heavy_computation_task_returns env req db Hf) as [_ Hd].
    left. exact Hd.
Qed.

Lemma deliver_returns `{PyRuntime} (env : Tasks.attempt_env)
    (m : Celery.message) (rest : list Celery.message) (db : tasks_table)
    (log : list Tasks.finish) :
  Tasks.faulty env = false ->
  let result := Tasks.compute_result (Celery.data (Celery.body m)) in
  deliver env ({| store := db; broker := m :: rest |}, log) =
    ({| store := commit db (save_result (Celery.task_id (Celery.body m))
                              result (Tasks.utcnow env) db);
        broker := rest |},
     (log ++ [Tasks.Succeeded
                {| Tasks.ret_task_id := Celery.task_id (Celery.body m);
                   Tasks.ret_result := result;
                   Tasks.ret_status := "completed";
                   Tasks.ret_message := "Task completed successfully" |}])%list).
Proof.
  intros Hf result. unfold deliver. cbn [broker store].
  destruct (heavy_computation_task_returns env (Celery.body m) db Hf)
    as [Hp Hd].
  rewrite Hp, Hd, app_nil_r. reflexivity.
Qed.

(** X7. An execution of the task changes no record but its own: the
    record of every other id is after the execution what it was before,
    whether the execution returns or raises. *)
Theorem execution_touches_only_its_record `{PyRuntime}
    (env : Tasks.attempt_env) (req : Celery.request) (db : tasks_table)
    (other : string) :
  Celery.task_id req <> other ->
  Tasks.db (Tasks.heavy_computation_task env req db) !! other = db !! other.
Proof.
  intros Hne.
  destruct (heavy_computation_task_db env req db) as [->|[msg ->]].
  - apply save_result_other, Hne.
  - apply mark_task_failed_other, Hne.
Qed.

Lemma execution_touches_only_its_record_witness :
  Tasks.db (Tasks.heavy_computation_task (H := sample_runtime)
              {| Tasks.rounds := 5; Tasks.utcnow := 9;
                 Tasks.fault := Some (1%nat, "boom") |}
              {| Celery.task_id := "t"; Celery.data := None;
                 Celery.retries := 0 |}
              (run_ops [CreateTask "t" 0; CreateTask "u" 1] ∅)) !! "u" =
  run_ops [CreateTask "t" 0; CreateTask "u" 1] ∅ !! "u".
Proof.
  apply (execution_touches_only_its_record (H := sample_runtime)
           {| Tasks.rounds := 5; Tasks.utcnow := 9;
              Tasks.fault := Some (1%nat, "boom") |}
           {| Celery.task_id := "t"; Celery.data := None;
              Celery.retries := 0 |}).
  cbn. discriminate.
Defined.

(** X8. An execution for a task id that has no record leaves the table
    exactly as it was, whether it returns or raises: the worker never
    creates a record. *)
Theorem execution_without_record_leaves_store `{PyRuntime}
    (env : Tasks.attempt_env) (req : Celery.request) (db : tasks_table) :
  db !! Celery.task_id req = None ->
  Tasks.db (Tasks.heavy_computation_task env req db) = db.
Proof.
  intros Hnone.
  destruct (heavy_computation_task_db env req db) as [->|[msg ->]]; cbn;
    apply alter_absent, Hnone.
Qed.

Lemma execution_without_record_leaves_store_witness :
  Tasks.db (Tasks.heavy_computation_task (H := sample_runtime)
              {| Tasks.rounds := 5; Tasks.utcnow := 9; Tasks.fault := None |}
              {| Celery.task_id := "t"; Celery.data := None;
                 Celery.retries := 0 |}
              (run_ops [CreateTask "u" 1] ∅)) =
  run_ops [CreateTask "u" 1] ∅.
Proof.
  apply (execution_without_record_leaves_store (H := sample_runtime)
           {| Tasks.rounds := 5; Tasks.utcnow := 9; Tasks.fault := None |}
           {| Celery.task_id := "t"; Celery.data := None;
              Celery.retries := 0 |}).
  vm_compute. reflexivity.
Defined.

(** X9. Every execution of a task that has a record leaves the record in a
    terminal status with [completed_at] set to the clock of that execution:
    no execution ends with the record still pending. *)
Theorem execution_ends_terminal `{PyRuntime}
    (env : Tasks.attempt_env) (req : Celery.request) (db : tasks_table)
    (row : task) :
  db !! Celery.task_id req = Some row ->
  exists row',
    Tasks.db (Tasks.heavy_computation_task env req db) !! Celery.task_id req =
      Some row' /\
    is_terminal (status row') = true /\
    completed_at row' = Some (Tasks.utcnow env) /\
    created_at row' = created_at row.
Proof.
  intros Hrow.
  destruct (heavy_computation_task_db env req db) as [->|[msg ->]].
  - rewrite (save_result_lookup db _ _ _ row Hrow). eexists.
    split; [reflexivity|]. cbn. auto.
  - rewrite (mark_task_failed_lookup db _ _ _ row Hrow). eexists.
    split; [reflexivity|]. cbn. auto.
Qed.

Lemma execution_ends_terminal_witness :
  exists row',
    Tasks.db (Tasks.heavy_computation_task (H := sample_runtime)
                {| Tasks.rounds := 5; Tasks.utcnow := 9;
                   Tasks.fault := Some (5%nat, "boom") |}
                {| Celery.task_id := "t"; Celery.data := None;
                   Celery.retries := 0 |}
                {["t" := {| status := "pending"; result := None;
                            error_message := None; created_at := Some 0;
                            completed_at := None |}]}) !!
      Celery.task_id {| Celery.task_id := "t"; Celery.data := None;
                        Celery.retries := 0 |} =
      Some row' /\
    is_terminal (status row') = true /\
    completed_at row' =
      Some (Tasks.utcnow {| Tasks.rounds := 5; Tasks.utcnow := 9;
                            Tasks.fault := Some (5%nat, "boom") |}) /\
    created_at row' =
      created_at {| status := "pending"; result := None;
                    error_message := None; created_at := Some 0;
                    completed_at := None |}.
Proof.
  apply (execution_ends_terminal (H := sample_runtime)).
  apply lookup_singleton_eq.
Defined.

(** X10. Submit and one execution in which nothing raises: the broker is
    empty again and a Query returns status completed with the computed
    result, no error message, the creation time of the Submit and the
    completion time of the execution. *)
Theorem submit_then_execute_completed `{PyRuntime}
    (uuid4 : string) (now : datetime) (task_data : Main.TaskData)
    (env : Tasks.attempt_env) (db : tasks_table) :
  db !! uuid4 = None ->
  Tasks.faulty env = false ->
  let w1 := snd (Main.process_task uuid4 now task_data
                   {| store := db; broker := [] |}) in
  let w2 := fst (run_worker [env] w1) in
  broker w2 = [] /\
  Main.get_task_status uuid4 (store w2) =
    Return {| Main.TaskStatusResponse.task_id := uuid4;
              Main.TaskStatusResponse.status := "completed";
              Main.TaskStatusResponse.result :=
                Some (Tasks.compute_result (Main.data task_data));
              Main.TaskStatusResponse.error_message := None;
              Main.TaskStatusResponse.created_at := Some (isoformat now);
              Main.TaskStatusResponse.completed_at :=
                Some (isoformat (Tasks.utcnow env)) |}.
Proof.
  intros Hfresh Hf. unfold Main.process_task, create_task. cbn [store].
  rewrite Hfresh. cbn [snd store broker app]. unfold run_worker. cbn [fold_left].
  rewrite (deliver_returns env _ _ _ _ Hf). cbn [fst store broker].
  split; [reflexivity|].
  unfold Main.get_task_status, get_task, Celery.delay.
  cbn [Celery.body Celery.task_id Celery.data].
  rewrite (save_result_lookup _ uuid4 _ _ _ (lookup_insert_eq _ _ _)).
  reflexivity.
Qed.

Lemma submit_then_execute_completed_witness :
  let env := {| Tasks.rounds := 5; Tasks.utcnow := 9; Tasks.fault := None |} in
  let task_data := {| Main.data := Some [("x", JNum 1)] |} in
  let w1 := snd (Main.process_task "6f1c" 5 task_data
                   {| store := ∅; broker := [] |}) in
  let w2 := fst (run_worker (H := sample_runtime) [env] w1) in
  broker w2 = [] /\
  Main.get_task_status (H := sample_runtime) "6f1c" (store w2) =
    Return {| Main.TaskStatusResponse.task_id := "6f1c";
              Main.TaskStatusResponse.status := "completed";
              Main.TaskStatusResponse.result :=
                Some (Tasks.compute_result (H := sample_runtime)
                        (Main.data task_data));
              Main.TaskStatusResponse.error_message := None;
              Main.TaskStatusResponse.created_at :=
                Some (isoformat (PyRuntime := sample_runtime) 5);
              Main.TaskStatusResponse.completed_at :=
                Some (isoformat (PyRuntime := sample_runtime)
                        (Tasks.utcnow env)) |}.
Proof.
  cbv zeta.
  apply (submit_then_execute_completed (H := sample_runtime) "6f1c" 5
           {| Main.data := Some [("x", JNum 1)] |}
           {| Tasks.rounds := 5; Tasks.utcnow := 9; Tasks.fault := None |} ∅).
  - apply lookup_empty.
  - reflexivity.
Defined.

(** X11. A task that raises on its first execution and returns on the
    retry: the first execution ends in [Retry] with delay 60, the second
    returns, the broker is empty, and the record is completed with the
    computed result, the completion time of the second execution, and
    still the error message of the first. *)
Theorem retry_then_success_completed `{PyRuntime}
    (e1 e2 : Tasks.attempt_env) (k : nat) (msg : string)
    (db : tasks_table) (task_id : string) (data : option dict) (row : task) :
  Tasks.fault e1 = Some (k, msg) ->
  (k <= Tasks.rounds e1)%nat ->
  Tasks.faulty e2 = false ->
  db !! task_id = Some row ->
  let r := run_worker [e1; e2]
             {| store := db; broker := [Celery.delay task_id data] |} in
  broker (fst r) = [] /\
  store (fst r) !! task_id =
    Some {| status := "completed";
            result := Some (Tasks.compute_result data);
            error_message := Some msg;
            created_at := created_at row;
            completed_at := Some (Tasks.utcnow e2) |} /\
  snd r =
    [Tasks.Raised (Celery.Retry msg
       {| Celery.body := {| Celery.task_id := task_id; Celery.data := data;
                            Celery.retries := 1 |};
          Celery.countdown := 60 |});
     Tasks.Succeeded
       {| Tasks.ret_task_id := task_id;
          Tasks.ret_result := Tasks.compute_result data;
          Tasks.ret_status := "completed";
          Tasks.ret_message := "Task completed successfully" |}].
Proof.
  intros Hfault Hk Hf Hrow r. subst r. unfold run_worker. cbn [fold_left].
  rewrite (deliver_raises e1 _ _ _ _ k msg Hfault Hk).
  cbn [app Celery.retry Celery.delay Celery.body Celery.retries
       Celery.task_id Celery.data Nat.ltb Nat.leb].
  rewrite (deliver_returns e2 _ _ _ _ Hf).
  cbn [fst snd store broker app Celery.body Celery.task_id Celery.data].
  split; [reflexivity|]. split; [|reflexivity].
  rewrite (save_result_lookup _ task_id _ _ _
             (mark_task_failed_lookup db task_id msg _ row Hrow)).
  reflexivity.
Qed.

Lemma retry_then_success_completed_witness :
  let e1 := {| Tasks.rounds := 5; Tasks.utcnow := 1;
               Tasks.fault := Some (2%nat, "boom") |} in
  let e2 := {| Tasks.rounds := 7; Tasks.utcnow := 2; Tasks.fault := None |} in
  let row := {| status := "pending"; result := None; error_message := None;
                created_at := Some 0; completed_at := None |} in
  let r := run_worker (H := sample_runtime) [e1; e2]
             {| store := {["t" := row]};
                broker := [Celery.delay "t" None] |} in
  broker (fst r) = [] /\
  store (fst r) !! "t" =
    Some {| status := "completed";
            result := Some (Tasks.compute_result (H := sample_runtime) None);
            error_message := Some "boom";
            created_at := created_at row;
            completed_at := Some (Tasks.utcnow e2) |} /\
  snd r =
    [Tasks.Raised (Celery.Retry "boom"
       {| Celery.body := {| Celery.task_id := "t"; Celery.data := None;
                            Celery.retries := 1 |};
          Celery.countdown := 60 |});
     Tasks.Succeeded
       {| Tasks.ret_task_id := "t";
          Tasks.ret_result := Tasks.compute_result (H := sample_runtime) None;
          Tasks.ret_status := "completed";
          Tasks.ret_message := "Task completed successfully" |}].
Proof.
  cbv zeta.
  apply (retry_then_success_completed (H := sample_runtime)
           {| Tasks.rounds := 5; Tasks.utcnow := 1;
              Tasks.fault := Some (2%nat, "boom") |}
           {| Tasks.rounds := 7; Tasks.utcnow := 2; Tasks.fault := None |}
           2%nat "boom" _ "t" None).
  - reflexivity.
  - cbn. lia.
  - reflexivity.
  - apply lookup_singleton_eq.
Defined.

(** X12. A Submit whose identifier already has a record raises the
    duplicate-key error of [create_task] and changes nothing: the record is
    not reset to pending and no work is published. *)
Theorem submit_existing_id_rejected
    (uuid4 : string) (now : datetime) (task_data : Main.TaskData)
    (w : world) (row : task) :
  store w !! uuid4 = Some row ->
  Main.process_task uuid4 now task_data w = (Raise (IntegrityError uuid4), w) /\
  run_ops [CreateTask uuid4 now] (store w) = store w.
Proof.
  intros Hrow. unfold Main.process_task. cbn [run_ops apply_op].
  unfold create_task. rewrite Hrow. split; reflexivity.
Qed.

Lemma submit_existing_id_rejected_witness :
  let w := {| store := {["t" := {| status := "completed"; result := Some 7;
                                 error_message := None; created_at := Some 0;
                                 completed_at := Some 1 |}]};
              broker := [] |} in
  Main.process_task "t" 5 {| Main.data := None |} w =
    (Raise (IntegrityError "t"), w) /\
  run_ops [CreateTask "t" 5] (store w) = store w.
Proof.
  cbv zeta.
  apply (submit_existing_id_rejected "t" 5 {| Main.data := None |}
           {| store := {["t" := {| status := "completed"; result := Some 7;
                                    error_message := None;
                                    created_at := Some 0;
                                    completed_at := Some 1 |}]};
              broker := [] |}
           {| status := "completed"; result := Some 7; error_message := None;
              created_at := Some 0; completed_at := Some 1 |}).
  apply lookup_singleton_eq.
Defined.

(** X13. [sum(range(n))] is n(n-1)/2 for every [n]. *)
Theorem sum_range_formula (n : N) :
  Tasks.sum_range n = Z.of_N n * (Z.of_N n - 1) / 2.
Proof.
  pose proof (sum_range_closed n) as Hc.
  rewrite <- Hc, Z.mul_comm. symmetry. apply Z.div_mul. discriminate.
Qed.

(** X14. A task that raises on every execution is executed four times,
    the first and three retries; then nothing is left on the broker, the
    last execution has re-raised its error, and a Query returns status
    failed with the error message and the completion time of the fourth
    execution. *)
Theorem always_failing_task_ends_failed `{PyRuntime}
    (e1 e2 e3 e4 : Tasks.attempt_env) (k1 k2 k3 k4 : nat)
    (msg1 msg2 msg3 msg4 : string) (db : tasks_table)
    (task_id : string) (data : option dict) (row : task) :
  Tasks.fault e1 = Some (k1, msg1) -> (k1 <= Tasks.rounds e1)%nat ->
  Tasks.fault e2 = Some (k2, msg2) -> (k2 <= Tasks.rounds e2)%nat ->
  Tasks.fault e3 = Some (k3, msg3) -> (k3 <= Tasks.rounds e3)%nat ->
  Tasks.fault e4 = Some (k4, msg4) -> (k4 <= Tasks.rounds e4)%nat ->
  db !! task_id = Some row ->
  let r := run_worker [e1; e2; e3; e4]
             {| store := db; broker := [Celery.delay task_id data] |} in
  broker (fst r) = [] /\
  length (snd r) = 4%nat /\
  last (snd r) = Some (Tasks.Raised (Celery.Reraise msg4)) /\
  Main.get_task_status task_id (store (fst r)) =
    Return {| Main.TaskStatusResponse.task_id := task_id;
              Main.TaskStatusResponse.status := "failed";
              Main.TaskStatusResponse.result := result row;
              Main.TaskStatusResponse.error_message := Some msg4;
              Main.TaskStatusResponse.created_at :=
                isoformat <$> created_at row;
              Main.TaskStatusResponse.completed_at :=
                Some (isoformat (Tasks.utcnow e4)) |}.
Proof.
  intros F1 K1 F2 K2 F3 K3 F4 K4 Hrow r. subst r.
  rewrite (run_worker_four_failures e1 e2 e3 e4 k1 k2 k3 k4
             msg1 msg2 msg3 msg4 db task_id data F1 K1 F2 K2 F3 K3 F4 K4).
  cbn [fst snd store broker]. repeat (split; [reflexivity|]).
  unfold Main.get_task_status, get_task.
  pose proof (mark_task_failed_lookup db task_id msg1 (Tasks.utcnow e1)
                row Hrow) as H1.
  pose proof (mark_task_failed_lookup _ task_id msg2 (Tasks.utcnow e2)
                _ H1) as H2.
  pose proof (mark_task_failed_lookup _ task_id msg3 (Tasks.utcnow e3)
                _ H2) as H3.
  rewrite (mark_task_failed_lookup _ task_id msg4 (Tasks.utcnow e4) _ H3).
  reflexivity.
Qed.

Lemma always_failing_task_ends_failed_witness :
  let env now := {| Tasks.rounds := 5; Tasks.utcnow := now;
                    Tasks.fault := Some (0%nat, "boom") |} in
  let row := {| status := "pending"; result := None; error_message := None;
                created_at := Some 0; completed_at := None |} in
  let r := run_worker (H := sample_runtime) [env 1; env 2; env 3; env 4]
             {| store := {["t" := row]};
                broker := [Celery.delay "t" None] |} in
  broker (fst r) = [] /\
  length (snd r) = 4%nat /\
  last (snd r) = Some (Tasks.Raised (Celery.Reraise "boom")) /\
  Main.get_task_status (H := sample_runtime) "t" (store (fst r)) =
    Return {| Main.TaskStatusResponse.task_id := "t";
              Main.TaskStatusResponse.status := "failed";
              Main.TaskStatusResponse.result := result row;
              Main.TaskStatusResponse.error_message := Some "boom";
              Main.TaskStatusResponse.created_at :=
                isoformat (PyRuntime := sample_runtime) <$> created_at row;
              Main.TaskStatusResponse.completed_at :=
                Some (isoformat (PyRuntime := sample_runtime)
                        (Tasks.utcnow (env 4))) |}.
Proof.
  cbv zeta.
  apply (always_failing_task_ends_failed (H := sample_runtime)
           _ _ _ _ 0%nat 0%nat 0%nat 0%nat "boom" "boom" "boom" "boom"
           _ "t" None
           {| status := "pending"; result := None; error_message := None;
              created_at := Some 0; completed_at := None |});
    solve [reflexivity | cbn; lia | apply lookup_singleton_eq].
Defined.

(** X15. A Query for one task is not affected by writes for other tasks:
    after any run of store operations none of which addresses [task_id], a
    Query for [task_id] returns what it returned before. *)
Theorem query_unaffected_by_other_ids `{PyRuntime}
    (ops : list op) (db : tasks_table) (task_id : string) :
  Forall (fun o => op_id o <> task_id) ops ->
  Main.get_task_status task_id (run_ops ops db) =
    Main.get_task_status task_id db.
Proof.
  intros Hall. unfold Main.get_task_status, get_task.
  assert (Hsame : run_ops ops db !! task_id = db !! task_id);
    [|rewrite Hsame; reflexivity].
  revert db. induction Hall as [|o ops Hne _ IH]; intros db; [reflexivity|].
  cbn [run_ops]. rewrite IH.
  destruct o as [tid now|tid res now|tid msg now]; cbn in Hne |- *.
  - unfold create_task. destruct (db !! tid); cbn; [reflexivity|].
    apply lookup_insert_ne, Hne.
  - apply lookup_alter_ne, Hne.
  - apply lookup_alter_ne, Hne.
Qed.

Lemma query_unaffected_by_other_ids_witness :
  let db : tasks_table :=
    {["t" := {| status := "pending"; result := None; error_message := None;
               created_at := Some 0; completed_at := None |}]} in
  let ops := [CreateTask "u" 1; SaveResult "u" 7 2;
              MarkTaskFailed "v" "boom" 3] in
  Main.get_task_status (H := sample_runtime) "t" (run_ops ops db) =
    Main.get_task_status (H := sample_runtime) "t" db.
Proof.
  cbv zeta.
  apply (query_unaffected_by_other_ids (H := sample_runtime)).
  repeat constructor; cbn; discriminate.
Defined.
